(** * Workspace configuration resolution (src/extensions/workspace-config/workspace-config.ts)

    A shallow embedding of the [WorkspaceConfig] class: JavaScript values and
    objects, the truthiness that drives [||] and [if], the collaborators the
    class calls (parser, path join, Legacy Bridge, Override Table), and the
    class's accessors, factories and persistence. *)

From stdpp Require Import base option strings list gmap.
From Stdlib Require Import ZArith.

Open Scope string_scope.

(** ** JavaScript values *)

(** JSON-shaped values together with [undefined].  An object is an ordered
    association list: JavaScript objects keep the insertion order of their
    keys, and the on-disk format relies on it.  Arrays are left out: the class
    never indexes one. *)
#[local] Set Warnings "-register-all".
Inductive value : Type :=
  | VUndefined
  | VNull
  | VBool (b : bool)
  | VNum (n : Z)
  | VStr (s : string)
  | VObj (fields : list (string * value)).

Abbreviation obj := (list (string * value)).

(** ToBoolean: what [if (x)] and [x || y] test. *)
Definition truthy (v : value) : bool :=
  match v with
  | VUndefined | VNull => false
  | VBool b => b
  | VNum n => negb (Z.eqb n 0)
  | VStr s => negb (String.eqb s "")
  | VObj _ => true
  end.

(** [a || b] *)
Definition jsor (a b : value) : value := if truthy a then a else b.

(** [o[k]] on an object: the first binding of [k], [None] when [k] is not a key. *)
Fixpoint lookup_key (k : string) (o : obj) : option value :=
  match o with
  | [] => None
  | (k', v) :: rest => if decide (k = k') then Some v else lookup_key k rest
  end.

(** [k in o] *)
Definition has_key (k : string) (o : obj) : bool :=
  match lookup_key k o with Some _ => true | None => false end.

(** [o[k]], [undefined] for a missing key. *)
Definition get_key (k : string) (o : obj) : value :=
  default VUndefined (lookup_key k o).

(** [o[k] = v]: an existing key keeps its position, a new key goes last. *)
Fixpoint set_key (k : string) (v : value) (o : obj) : obj :=
  match o with
  | [] => [(k, v)]
  | (k', v') :: rest =>
      if decide (k = k') then (k, v) :: rest else (k', v') :: set_key k v rest
  end.

(** [Object.keys(o)] *)
Definition keys (o : obj) : list string := map fst o.

(** [v.k] for the property names this class reads ([workspace], [components],
    [env], [compiler], [tester]): a primitive has no such property and yields
    [undefined]; [undefined] and [null] have no properties at all. *)
Definition get_prop (v : value) (k : string) : value :=
  match v with
  | VObj o => get_key k o
  | _ => VUndefined
  end.

Definition nullish (v : value) : bool :=
  match v with VUndefined | VNull => true | _ => false end.

(** ** Errors *)

Inductive error : Type :=
  | InvalidConfigFile (path : string)   (* ./exceptions/invalid-config-file *)
  | TypeError                           (* raised by the JavaScript runtime *)
  | External (msg : string).            (* raised by a collaborator, passed on unchanged *)

Inductive result (A : Type) : Type :=
  | Ok (a : A)
  | Throw (e : error).
Arguments Ok {A} a.
Arguments Throw {A} e.

(** Sequencing: a thrown error skips the rest, as an exception does.  The
    instances give the [x ← r; k] notation. *)
#[global] Instance result_ret : MRet result := fun _ a => Ok a.
#[global] Instance result_bind : MBind result := fun _ _ k r =>
  match r with
  | Ok a => k a
  | Throw e => Throw e
  end.

(** [v.k] where [v] may be [undefined] or [null]: the read throws. *)
Definition read_prop (v : value) (k : string) : result value :=
  if nullish v then Throw TypeError else Ok (get_prop v k).

(** [v.k = x] in strict mode (the module is an ES module): only an object
    takes the property; [undefined], [null] and primitives throw. *)
Definition write_prop (v : value) (k : string) (x : value) : result value :=
  match v with
  | VObj o => Ok (VObj (set_key k x o))
  | _ => Throw TypeError
  end.

(** ** Library functions the class imports *)

(** comment-json's [assign(target, source)]: as [Object.assign], it copies
    every own key of [source] onto [target], in [source]'s key order, and
    returns [target]; a [source] that is not an object leaves [target] as it
    is.  This is the value-level view; [Refs] below keeps track of which
    object is written. *)
Definition assign (target : obj) (source : value) : obj :=
  match source with
  | VObj s => fold_left (fun t k => set_key k (get_key k s) t) (keys s) target
  | _ => target
  end.

(** ramda's [pick(names, o)]: [if (names[idx] in o) result[names[idx]] = o[names[idx]]]. *)
Definition pick (names : list string) (o : obj) : obj :=
  fold_left (fun r n => if has_key n o then set_key n (get_key n o) r else r) names [].

(** ramda's [omit(names, o)]: [for (prop in o) if (!index.hasOwnProperty(prop)) result[prop] = o[prop]]. *)
Definition omit (names : list string) (o : obj) : obj :=
  fold_left
    (fun r p => if bool_decide (p ∈ names) then r else set_key p (get_key p o) r)
    (keys o) [].

(** ** Data model *)

(** Component ids are opaque tokens, used only as keys for matching. *)
Definition BitId := string.

(** Modelled from the spec: the Override Table (ConsumerOverrides, in
    consumer/config/consumer-overrides, not among the sources).  An ordered
    collection of (component-id pattern, override record) entries. *)
Record ConsumerOverrides : Type := mkOverrides {
  overrides : list (string * value)
}.

(** Modelled from the spec: [ConsumerOverrides.load(rawComponentsSection)]
    builds the table from the raw parsed section and never fails; a missing or
    malformed section gives the empty table. *)
Definition ConsumerOverrides_load (raw : value) : ConsumerOverrides :=
  match raw with
  | VObj entries => mkOverrides entries
  | _ => mkOverrides []
  end.

(** Modelled from the spec: the Legacy Bridge (LegacyWorkspaceConfig, in
    consumer/config/workspace-config, not among the sources) as this class
    uses it: the root-level compiler, tester and language, the path it was
    loaded from, its override table, the settings it adapts to the modern
    shape, and whatever else its plain-object snapshot carries. *)
Record LegacyWorkspaceConfig : Type := mkLegacy {
  legacy_path : option string;
  legacy_lang : option string;
  legacy_compiler : value;
  legacy_tester : value;
  legacy_overrides : option ConsumerOverrides;
  legacy_settings : obj;
  legacy_extra : obj
}.

(** Modelled from the spec: [toPlainObject()], the full plain-object snapshot;
    its [env] carries the root-level compiler and tester. *)
Definition toPlainObject (l : LegacyWorkspaceConfig) : obj :=
  set_key "env"
    (VObj [("compiler", legacy_compiler l); ("tester", legacy_tester l)])
    (legacy_extra l).

(** Modelled from the spec: the Workspace Settings Model (WorkspaceSettings,
    in ./workspace-settings, not among the sources): flattened workspace-level
    key/value settings, built either from the [workspace] section of modern
    data or from a legacy config. *)
Inductive WorkspaceSettings : Type :=
  | SettingsFromObject (props : value)
  | SettingsFromLegacyConfig (legacy : option LegacyWorkspaceConfig).

(** Modelled from the spec: the settings as flattened key/value fields, which
    is what [pick] and [omit] enumerate; for a legacy config, the fields the
    Legacy Bridge adapts to the modern shape. *)
Definition settings_fields (s : WorkspaceSettings) : obj :=
  match s with
  | SettingsFromObject (VObj props) => props
  | SettingsFromObject _ => []
  | SettingsFromLegacyConfig (Some l) => legacy_settings l
  | SettingsFromLegacyConfig None => []
  end.

(** A virtual file: what an [AbstractVinyl] holds. *)
Record AbstractVinyl : Type := mkVinyl {
  base : string;
  vinyl_path : string;
  contents : string
}.

(** Modelled from the spec: the virtual-file record (path and byte contents)
    handed to the persistence collaborator, built by
    [new AbstractVinyl({ base, path, contents })] (AbstractVinyl, in
    consumer/component/sources, not among the sources).  The class extends the
    vinyl package's file, whose [base] must be a non-empty string when one is
    given: the constructor throws on the empty string. *)
Definition new_AbstractVinyl (base path contents : string) : result AbstractVinyl :=
  if truthy (VStr base) then Ok (mkVinyl base path contents)
  else Throw (External "base must be a non-empty string, or null/undefined.").

(** The file system the class probes, reads and writes: a path names a file
    with its contents, or a directory. *)
Inductive node : Type :=
  | File (content : string)
  | Dir.

Abbreviation filesystem := (gmap string node).

(** ** Collaborators *)

(** What the class takes from outside the file: Node's [path.join], the
    comment-json parser and serializer, the parsed template resource, the
    constants, the pattern matcher of the Override Table and the Legacy
    Bridge's own load and persistence routines. *)
Class Collaborators : Type := {
  (** [path.join(a, b)] *)
  path_join : string -> string -> string;
  (** comment-json's [parse]; [None] when it throws *)
  parse : string -> option value;
  (** comment-json's [stringify(v, undefined, 2)] *)
  stringify : value -> string;
  (** the object [parse] yields for [workspace-template.jsonc] *)
  template : obj;
  (** the default language constant of ../../constants *)
  DEFAULT_LANGUAGE : string;
  (** whether a component id matches a pattern of the Override Table *)
  matches : BitId -> string -> bool;
  (** [LegacyWorkspaceConfig.loadIfExist(dirPath)]; [inl] when it throws *)
  legacy_loadIfExist : filesystem -> string -> string + option LegacyWorkspaceConfig;
  (** [legacyConfig.write({ workspaceDir })] *)
  legacy_write : LegacyWorkspaceConfig -> string -> filesystem -> filesystem;
  (** [legacyConfig.toVinyl({ workspaceDir })] *)
  legacy_toVinyl : LegacyWorkspaceConfig -> string -> option AbstractVinyl
}.

(** Modelled from the spec: the fixed, well-known file name of the modern
    config (BIT_JSONC of ../../constants, not among the sources). *)
Definition BIT_JSONC : string := "bit.jsonc".

(** ** The class *)

(** [a || b] where [a] is [string | undefined] and [b] a string. *)
Definition str_or (a : option string) (b : string) : string :=
  match a with
  | Some s => if truthy (VStr s) then s else b
  | None => b
  end.

(** [a || b] where evaluating [b] may throw: [b] is not evaluated when [a] is truthy. *)
Definition or_else (a : value) (b : result value) : result value :=
  if truthy a then Ok a else b.

Record WorkspaceConfig : Type := mkConfig {
  _path : option string;
  workspaceSettings : WorkspaceSettings;
  data : value;
  legacyConfig : option LegacyWorkspaceConfig
}.

(** [constructor(private data?, private legacyConfig?)] *)
Definition new_WorkspaceConfig (data : value)
    (legacyConfig : option LegacyWorkspaceConfig) : WorkspaceConfig :=
  {| _path := None;
     workspaceSettings :=
       if truthy data then SettingsFromObject (get_prop data "workspace")
       else SettingsFromLegacyConfig legacyConfig;
     data := data;
     legacyConfig := legacyConfig |}.

(** [get path()] *)
Definition path (c : WorkspaceConfig) : string :=
  str_or (_path c) (str_or (legacyConfig c ≫= legacy_path) "").

(** [set path(configPath)] *)
Definition set_path (c : WorkspaceConfig) (configPath : string) : WorkspaceConfig :=
  {| _path := Some configPath;
     workspaceSettings := workspaceSettings c;
     data := data c;
     legacyConfig := legacyConfig c |}.

(** [get _compiler()] and [get _tester()] *)
Definition _compiler (c : WorkspaceConfig) : value :=
  match legacyConfig c with Some l => legacy_compiler l | None => VUndefined end.

Definition _tester (c : WorkspaceConfig) : value :=
  match legacyConfig c with Some l => legacy_tester l | None => VUndefined end.

Inductive EnvType : Type := COMPILER_ENV_TYPE | TESTER_ENV_TYPE.

Definition _getEnvsByType (c : WorkspaceConfig) (type : EnvType) : value :=
  match type with
  | COMPILER_ENV_TYPE => _compiler c
  | TESTER_ENV_TYPE => _tester c
  end.

(** [get componentsConfig()] *)
Definition componentsConfig (c : WorkspaceConfig) : option ConsumerOverrides :=
  if truthy (data c) then Some (ConsumerOverrides_load (get_prop (data c) "components"))
  else legacyConfig c ≫= legacy_overrides.

(** [_legacyPlainObject()] *)
Definition _legacyPlainObject (c : WorkspaceConfig) : option obj :=
  match legacyConfig c with
  | Some l => Some (toPlainObject l)
  | None => None
  end.

(** [static fromLegacyConfig(legacyConfig)]; the parameter is untyped, so it
    may be [undefined]. *)
Definition fromLegacyConfig (legacyConfig : option LegacyWorkspaceConfig) : WorkspaceConfig :=
  new_WorkspaceConfig VUndefined legacyConfig.

(** [static fromObject(data)] *)
Definition fromObject (data : value) : WorkspaceConfig :=
  new_WorkspaceConfig data None.

(** [getCoreExtensionsConfig()] *)
Definition workspaceExtPropNames : list string :=
  ["defaultScope"; "componentsDefaultDirectory"].

Definition getCoreExtensionsConfig (c : WorkspaceConfig) : obj :=
  let workspaceConfig := settings_fields (workspaceSettings c) in
  let workspaceExtProps := pick workspaceExtPropNames workspaceConfig in
  let result := omit workspaceExtPropNames workspaceConfig in
  set_key "workspace" (VObj workspaceExtProps) result.

(** What a call does to the outside world, in order: files handed to
    [DataToPersist.persistAllToFS], and writes delegated to the Legacy Bridge. *)
Inductive effect : Type :=
  | Persist (files : list AbstractVinyl)
  | LegacyWrite (l : LegacyWorkspaceConfig) (workspaceDir : string).

(** ** Object identity

    [assign] writes into its target.  Where it matters which object is
    written, objects live in a store and are named by references. *)
Module Refs.

Abbreviation ref := nat.
Abbreviation store := (list obj).

(** A new object, as an object literal or [parse] makes one. *)
Definition alloc (o : obj) (st : store) : ref * store :=
  (length st, (st ++ [o])%list).

(** The current contents of the object a reference names. *)
Definition deref (st : store) (r : ref) : obj :=
  default [] (st !! r).

(** [assign(target, source)]: the keys of [source] are written into the
    object [target] names, and [target] itself is returned. *)
Definition assign_ref (target : ref) (source : value) (st : store) : ref * store :=
  (target, alter (fun o => assign o source) target st).

End Refs.

Section Resolution.
Context `{Collaborators}.

(** [get lang()] *)
Definition lang (c : WorkspaceConfig) : string :=
  str_or (legacyConfig c ≫= legacy_lang) DEFAULT_LANGUAGE.

(** Modelled from the spec: [getOverrideComponentData(componentId)] of the
    Override Table matches the id against all stored patterns and merges
    every matching record in table order, a later match shallow-overriding
    an earlier one field by field; it returns a fresh record, the empty one
    when nothing matches. *)
Definition getOverrideComponentData (t : ConsumerOverrides) (componentId : BitId) : obj :=
  fold_left
    (fun merged entry => if matches componentId entry.1 then assign merged entry.2 else merged)
    (overrides t) [].

(** [componentsConfig?.getOverrideComponentData(componentId) || {}], the
    record [getComponentConfig] starts from. *)
Definition overrideData (c : WorkspaceConfig) (componentId : BitId) : obj :=
  match componentsConfig c with
  | Some t => getOverrideComponentData t componentId
  | None => []
  end.

(** [getComponentConfig(componentId)].  [config.env] is one object reached
    through [config]; the two assignments to it are rebuilt into [config]. *)
Definition getComponentConfig (c : WorkspaceConfig) (componentId : BitId) : result obj :=
  let config := overrideData c componentId in
  match _legacyPlainObject c with
  | Some plainLegacy =>
      let env := jsor (get_key "env" config) (VObj []) in
      compiler ← or_else (get_prop env "compiler")
                         (read_prop (get_key "env" plainLegacy) "compiler");
      env1 ← write_prop env "compiler" compiler;
      tester ← or_else (get_prop env1 "tester")
                       (read_prop (get_key "env" plainLegacy) "tester");
      env2 ← write_prop env1 "tester" tester;
      Ok (set_key "env" env2 config)
  | None => Ok config
  end.

(** [static composeBitJsoncPath(dirPath)] *)
Definition composeBitJsoncPath (dirPath : string) : string :=
  path_join dirPath BIT_JSONC.

(** [static create(props, dirPath?)] *)
Definition create (props : value) (dirPath : option string) : WorkspaceConfig :=
  let merged := assign template props in
  let instance := new_WorkspaceConfig (VObj merged) None in
  match dirPath with
  | Some d => if truthy (VStr d) then set_path instance (composeBitJsoncPath d) else instance
  | None => instance
  end.

(** [fs.pathExists] and [fs.readFile] *)
Definition pathExists (fs : filesystem) (p : string) : bool :=
  match fs !! p with Some _ => true | None => false end.

Definition readFile (fs : filesystem) (p : string) : result string :=
  match fs !! p with
  | Some (File content) => Ok content
  | Some Dir => Throw (External "EISDIR")
  | None => Throw (External "ENOENT")
  end.

(** [static pathHasBitJsonc(dirPath)] *)
Definition pathHasBitJsonc (fs : filesystem) (dirPath : string) : bool :=
  pathExists fs (composeBitJsoncPath dirPath).

(** [static _loadFromBitJsonc(bitJsoncPath)]: the read is outside the [try];
    whatever is thrown inside it becomes [InvalidConfigFile]. *)
Definition _loadFromBitJsonc (fs : filesystem) (bitJsoncPath : string) : result WorkspaceConfig :=
  contentBuffer ← readFile fs bitJsoncPath;
  match parse contentBuffer with
  | Some parsed => Ok (fromObject parsed)
  | None => Throw (InvalidConfigFile bitJsoncPath)
  end.

(** [static loadIfExist(dirPath)]; [Ok None] is [undefined]. *)
Definition loadIfExist (fs : filesystem) (dirPath : string) : result (option WorkspaceConfig) :=
  if pathHasBitJsonc fs dirPath then
    let jsoncPath := composeBitJsoncPath dirPath in
    instance ← _loadFromBitJsonc fs jsoncPath;
    Ok (Some (set_path instance jsoncPath))
  else
    match legacy_loadIfExist fs dirPath with
    | inl msg => Throw (External msg)
    | inr (Some legacyConfig) => Ok (Some (fromLegacyConfig (Some legacyConfig)))
    | inr None => Ok None
    end.

(** [static ensure(dirPath, workspaceConfigProps = {})] *)
Definition ensure (fs : filesystem) (dirPath : string)
    (workspaceConfigProps : option value) : result WorkspaceConfig :=
  workspaceConfig ← loadIfExist fs dirPath;
  match workspaceConfig with
  | Some found => Ok found
  | None => Ok (create (default (VObj []) workspaceConfigProps) (Some dirPath))
  end.

(** [toVinyl(workspaceDir)]; [Ok None] is [undefined]. *)
Definition toVinyl (c : WorkspaceConfig) (workspaceDir : string) : result (option AbstractVinyl) :=
  if truthy (data c) then
    let jsonStr := stringify (data c) in
    let fullPath :=
      if truthy (VStr workspaceDir) then composeBitJsoncPath workspaceDir else path c in
    jsonFile ← new_AbstractVinyl workspaceDir fullPath jsonStr;
    Ok (Some jsonFile)
  else
    Ok (legacyConfig c ≫= (fun l => legacy_toVinyl l workspaceDir)).

(** [write({ workspaceDir })], as the effects it issues; when [toVinyl] throws,
    the call throws before any effect. *)
Definition write (c : WorkspaceConfig) (workspaceDir : string) : result (list effect) :=
  let delegate :=
    match legacyConfig c with
    | Some l => [LegacyWrite l workspaceDir]
    | None => []
    end in
  if truthy (data c) then
    file ← toVinyl c workspaceDir;
    match file with
    | Some file => Ok [Persist [file]]
    | None => Ok delegate
    end
  else Ok delegate.

(** What the effects do to the file system: the persistence collaborator
    writes every file it was handed at its path; the Legacy Bridge writes
    its own file. *)
Definition persistAllToFS (files : list AbstractVinyl) (fs : filesystem) : filesystem :=
  fold_left (fun fs' f => <[vinyl_path f := File (contents f)]> fs') files fs.

Definition run_effect (fs : filesystem) (e : effect) : filesystem :=
  match e with
  | Persist files => persistAllToFS files fs
  | LegacyWrite l workspaceDir => legacy_write l workspaceDir fs
  end.

(** The effects a call issued: none when it threw. *)
Definition effects_of (r : result (list effect)) : list effect :=
  match r with
  | Ok es => es
  | Throw _ => []
  end.

(** The file system after [write({ workspaceDir })]. *)
Definition run_write (c : WorkspaceConfig) (workspaceDir : string) (fs : filesystem) : filesystem :=
  fold_left run_effect (effects_of (write c workspaceDir)) fs.

(** No pattern of the Override Table the config uses matches the id. *)
Definition no_matching_override (c : WorkspaceConfig) (componentId : BitId) : bool :=
  match componentsConfig c with
  | Some t => forallb (fun entry => negb (matches componentId entry.1)) (overrides t)
  | None => true
  end.

(** The first three statements of [create], with object identity: the
    template is parsed into a new object, [assign] merges [props] into it, and
    the instance is constructed around what [assign] returned.  The result
    gives the reference of the parsed template and the reference of [merged]. *)
Definition create_refs (props : value) (st : Refs.store) : Refs.ref * Refs.ref * Refs.store :=
  let '(template_ref, st1) := Refs.alloc template st in
  let '(merged_ref, st2) := Refs.assign_ref template_ref props st1 in
  (template_ref, merged_ref, st2).

(** ** Reachable configurations and the payload invariant *)

(** The configurations the public factories produce, and what the [path]
    setter, the only mutator, makes of them. *)
Inductive built : WorkspaceConfig -> Prop :=
  | built_fromObject d : built (fromObject d)
  | built_fromLegacyConfig l : built (fromLegacyConfig l)
  | built_create props dirPath : built (create props dirPath)
  | built_loadIfExist fs dirPath c : loadIfExist fs dirPath = Ok (Some c) -> built c
  | built_ensure fs dirPath props c : ensure fs dirPath props = Ok c -> built c
  | built_set_path c p : built c -> built (set_path c p).

End Resolution.

(** The modern payload is non-empty. *)
Definition has_modern (c : WorkspaceConfig) : bool := truthy (data c).

(** The legacy payload is non-empty. *)
Definition has_legacy (c : WorkspaceConfig) : bool :=
  match legacyConfig c with Some _ => true | None => false end.

(** Exactly one of the two payloads is non-empty. *)
Definition exactly_one_payload (c : WorkspaceConfig) : Prop :=
  xorb (has_modern c) (has_legacy c) = true.

(** [workspaceSettings] is what the constructor derives from the payloads. *)
Definition settings_derived (c : WorkspaceConfig) : Prop :=
  workspaceSettings c =
    if has_modern c then SettingsFromObject (get_prop (data c) "workspace")
    else SettingsFromLegacyConfig (legacyConfig c).

(** What every reachable configuration satisfies: never both payloads, and
    settings derived from the payload the constructor looked at. *)
Definition payload_invariant (c : WorkspaceConfig) : Prop :=
  (has_modern c = true -> legacyConfig c = None) /\ settings_derived c.

(** How many files a list of effects hands to the persistence collaborator,
    and how many writes it delegates to the Legacy Bridge. *)
Definition files_persisted (es : list effect) : nat :=
  sum_list (map (fun e => match e with Persist files => length files | LegacyWrite _ _ => 0 end) es).

Definition legacy_writes (es : list effect) : nat :=
  sum_list (map (fun e => match e with Persist _ => 0 | LegacyWrite _ _ => 1 end) es).

(** An override record supplies [env.field] with the value [v]: it carries
    [v] there and [v] counts as present to [||], that is, [v] is truthy. *)
Definition supplies (record : obj) (field : string) (v : value) : Prop :=
  get_prop (get_key "env" record) field = v /\ truthy v = true.

(** ** A concrete workspace

    One instance of the collaborators, small enough to run: it is what the
    closed examples below evaluate the class on. *)
Module Demo.

(** [path.join] of a directory written without a trailing separator and a
    plain file name; an empty directory contributes nothing, as in Node. *)
Definition join (a b : string) : string :=
  if decide (a = "") then b else a ++ "/" ++ b.

Definition template_doc : obj :=
  [("$schema", VStr "https://static.bit.dev/schemas/schema.json");
   ("$schemaVersion", VStr "1.0.0");
   ("workspace", VObj [("defaultScope", VStr "my-scope");
                       ("componentsDefaultDirectory", VStr "components")])].

(** A serializer and a parser that know three documents: [null], the empty
    object and the template. *)
Definition stringify_doc (v : value) : string :=
  match v with
  | VNull => "null"
  | VObj [] => "{}"
  | VObj _ => "{ template }"
  | _ => "0"
  end.

Definition parse_doc (s : string) : option value :=
  if decide (s = "null") then Some VNull
  else if decide (s = "{}") then Some (VObj [])
  else if decide (s = "{ template }") then Some (VObj template_doc)
  else if decide (s = "0") then Some (VNum 0)
  else None.

(** A legacy workspace: compiler and tester at the root, and an override table
    of its own. *)
Definition legacy_cfg : LegacyWorkspaceConfig :=
  {| legacy_path := Some "/w/bit.json";
     legacy_lang := Some "typescript";
     legacy_compiler := VStr "bit.envs/compilers/babel";
     legacy_tester := VStr "bit.envs/testers/mocha";
     legacy_overrides := Some (mkOverrides
       [("ui/button", VObj [("env", VObj [("compiler", VStr "bit.envs/compilers/typescript")]);
                            ("dependencies", VObj [("react", VStr "16.0.0")])]);
        ("ui/plain", VObj [("env", VObj [("compiler", VBool false)])])]);
     legacy_settings := [("defaultScope", VStr "s");
                         ("componentsDefaultDirectory", VStr "d");
                         ("lang", VStr "ts")];
     legacy_extra := [("lang", VStr "typescript")] |}.

(** A Legacy Bridge that keeps its config in [bit.json]. *)
Definition legacy_load (fs : filesystem) (dirPath : string) : string + option LegacyWorkspaceConfig :=
  match fs !! join dirPath "bit.json" with
  | Some (File _) => inr (Some legacy_cfg)
  | Some Dir => inl "EISDIR"
  | None => inr None
  end.

Definition legacy_save (l : LegacyWorkspaceConfig) (workspaceDir : string)
    (fs : filesystem) : filesystem :=
  <[join workspaceDir "bit.json" := File "legacy"]> fs.

Definition collaborators : Collaborators :=
  {| path_join := join;
     parse := parse_doc;
     stringify := stringify_doc;
     template := template_doc;
     DEFAULT_LANGUAGE := "javascript";
     matches := String.eqb;
     legacy_loadIfExist := legacy_load;
     legacy_write := legacy_save;
     legacy_toVinyl := fun l workspaceDir =>
       Some (mkVinyl workspaceDir (join workspaceDir "bit.json") "legacy") |}.

(** A workspace directory holding a modern config that parses to [null], one
    holding a malformed modern config, and one holding only a legacy config. *)
Definition fs_null : filesystem := {[ "/w/bit.jsonc" := File "null" ]}.
Definition fs_broken : filesystem := {[ "/w/bit.jsonc" := File "{ workspace: " ]}.
Definition fs_legacy : filesystem := {[ "/w/bit.json" := File "legacy" ]}.


(** Configurations and inputs the examples use. *)
Definition legacy_wrapped : WorkspaceConfig := fromLegacyConfig (Some legacy_cfg).

Definition modern_doc : value :=
  VObj [("workspace", VObj [("defaultScope", VStr "s");
                            ("componentsDefaultDirectory", VStr "d");
                            ("lang", VStr "ts")]);
        ("components",
         VObj [("ui/button", VObj [("env", VObj [("compiler", VStr "bit.envs/compilers/typescript")])])])].

Definition moved : WorkspaceConfig :=
  set_path (fromObject (VObj template_doc)) "/elsewhere/bit.jsonc".

Definition scoped_props : value :=
  VObj [("workspace", VObj [("defaultScope", VStr "acme")])].

Definition clashing : WorkspaceConfig :=
  fromObject (VObj [("workspace", VObj [("workspace", VStr "x"); ("lang", VStr "ts")])]).

End Demo.

(** * Properties *)

(** ** Objects *)

Lemma lookup_key_set_key_eq k v (o : obj) :
  lookup_key k (set_key k v o) = Some v.
Proof.
  induction o as [|[k' v'] o IH]; simpl.
  - by rewrite decide_True.
  - destruct (decide (k = k')) as [->|Hne]; simpl.
    + by rewrite decide_True.
    + by rewrite decide_False.
Qed.

Lemma lookup_key_set_key_ne k k' v (o : obj) :
  k ≠ k' -> lookup_key k' (set_key k v o) = lookup_key k' o.
Proof.
  intros Hne. induction o as [|[k0 v0] o IH]; simpl.
  - by rewrite decide_False.
  - destruct (decide (k = k0)) as [->|Hne0]; simpl.
    + by rewrite !decide_False.
    + by rewrite IH.
Qed.

Lemma get_key_set_key_eq k v (o : obj) : get_key k (set_key k v o) = v.
Proof. unfold get_key. by rewrite lookup_key_set_key_eq. Qed.

Lemma get_key_set_key_ne k k' v (o : obj) :
  k ≠ k' -> get_key k' (set_key k v o) = get_key k' o.
Proof. intros. unfold get_key. by rewrite lookup_key_set_key_ne. Qed.

Lemma lookup_key_None k (o : obj) : lookup_key k o = None <-> k ∉ keys o.
Proof.
  induction o as [|[k' v'] o IH]; simpl.
  - split; [intros _; apply not_elem_of_nil | done].
  - destruct (decide (k = k')) as [->|Hne].
    + split; [done | intros Hn; exfalso; apply Hn; left].
    + rewrite IH. rewrite not_elem_of_cons. tauto.
Qed.

Lemma has_key_elem k (o : obj) : has_key k o = true <-> k ∈ keys o.
Proof.
  unfold has_key. destruct (lookup_key k o) eqn:E.
  - split; [intros _ | done].
    destruct (decide (k ∈ keys o)) as [|Hn]; [done|].
    apply lookup_key_None in Hn. congruence.
  - apply lookup_key_None in E. split; [done | intros; contradiction].
Qed.

(** Writing a key keeps the order of the keys: a new key goes last. *)
Lemma keys_set_key k v (o : obj) :
  keys (set_key k v o) = if has_key k o then keys o else (keys o ++ [k])%list.
Proof.
  unfold has_key, keys. induction o as [|[k' v'] o IH]; simpl; [done|].
  destruct (decide (k = k')) as [->|Hne]; simpl; [done|].
  rewrite IH. by destruct (lookup_key k o).
Qed.

(** The loop of [assign]: each listed key ends up with the source's value,
    every other key keeps the target's. *)
Lemma lookup_key_assign_loop (s : obj) (ks : list string) (t : obj) k :
  lookup_key k (fold_left (fun t k => set_key k (get_key k s) t) ks t) =
    if bool_decide (k ∈ ks) then Some (get_key k s) else lookup_key k t.
Proof.
  revert t. induction ks as [|k0 ks IH]; intros t.
  - case_bool_decide as Hin; [by apply elem_of_nil in Hin | done].
  - cbn [fold_left]. rewrite IH.
    destruct (decide (k = k0)) as [->|Hne].
    + rewrite lookup_key_set_key_eq.
      rewrite (bool_decide_eq_true_2 (k0 ∈ k0 :: ks)); [|by left].
      by case_bool_decide.
    + rewrite lookup_key_set_key_ne; [|done].
      repeat case_bool_decide; try done.
      * exfalso. match goal with Hn : ¬ _ |- _ => apply Hn end. by right.
      * match goal with Hi : _ ∈ _ :: _ |- _ => apply elem_of_cons in Hi as [?|?] end; done.
Qed.

Lemma lookup_key_assign (t s : obj) k :
  lookup_key k (assign t (VObj s)) =
    if has_key k s then Some (get_key k s) else lookup_key k t.
Proof.
  unfold assign. rewrite lookup_key_assign_loop.
  destruct (has_key k s) eqn:E.
  - apply has_key_elem in E. by rewrite bool_decide_eq_true_2.
  - rewrite bool_decide_eq_false_2; [done|].
    intros Hin. apply has_key_elem in Hin. congruence.
Qed.

Section Properties.
Context `{Collaborators}.

(** ** Component config resolution *)

Lemma getOverrideComponentData_no_match t id :
  forallb (fun entry => negb (matches id entry.1)) (overrides t) = true ->
  getOverrideComponentData t id = [].
Proof.
  unfold getOverrideComponentData. generalize (@nil (string * value)) as acc.
  induction (overrides t) as [|e es IH]; intros acc Hall; simpl in *; [done|].
  apply andb_prop in Hall as [He Hes].
  apply negb_true_iff in He. rewrite He. by apply IH.
Qed.

Lemma overrideData_no_match c id :
  no_matching_override c id = true -> overrideData c id = [].
Proof.
  unfold no_matching_override, overrideData.
  destruct (componentsConfig c); [apply getOverrideComponentData_no_match | done].
Qed.

Lemma get_env_toPlainObject l :
  get_key "env" (toPlainObject l) =
    VObj [("compiler", legacy_compiler l); ("tester", legacy_tester l)].
Proof. unfold toPlainObject. apply get_key_set_key_eq. Qed.

Lemma pair_env_compiler C T : get_key "compiler" [("compiler", C); ("tester", T)] = C.
Proof. reflexivity. Qed.

Lemma pair_env_tester C T : get_key "tester" [("compiler", C); ("tester", T)] = T.
Proof. reflexivity. Qed.

(** With a wrapped legacy config and an [env] that is absent, falsy or an
    object, the call returns: [env] gets [compiler] and [tester], each the
    override's value when truthy and the legacy root's otherwise. *)
Lemma getComponentConfig_legacy c l id o :
  legacyConfig c = Some l ->
  jsor (get_key "env" (overrideData c id)) (VObj []) = VObj o ->
  getComponentConfig c id =
    Ok (set_key "env"
          (VObj (set_key "tester" (jsor (get_key "tester" o) (legacy_tester l))
                   (set_key "compiler" (jsor (get_key "compiler" o) (legacy_compiler l)) o)))
          (overrideData c id)).
Proof.
  intros Hl Henv. unfold getComponentConfig, _legacyPlainObject.
  rewrite Hl, Henv, get_env_toPlainObject.
  unfold or_else, jsor, read_prop. cbn [nullish get_prop].
  rewrite (pair_env_compiler (legacy_compiler l)), (pair_env_tester (legacy_compiler l)).
  destruct (truthy (get_key "compiler" o)); cbn;
    (rewrite get_key_set_key_ne by done);
    destruct (truthy (get_key "tester" o)); reflexivity.
Qed.

(** Without a wrapped legacy config the Override Table's record is returned as it is. *)
Lemma getComponentConfig_modern c id :
  legacyConfig c = None -> getComponentConfig c id = Ok (overrideData c id).
Proof.
  intros Hl. unfold getComponentConfig, _legacyPlainObject. by rewrite Hl.
Qed.

(** A truthy primitive [env] cannot take the two properties: the call throws. *)
Lemma getComponentConfig_legacy_primitive c l id :
  legacyConfig c = Some l ->
  truthy (get_key "env" (overrideData c id)) = true ->
  (forall o, get_key "env" (overrideData c id) <> VObj o) ->
  getComponentConfig c id = Throw TypeError.
Proof.
  intros Hl Ht Hno. unfold getComponentConfig, _legacyPlainObject.
  rewrite Hl, get_env_toPlainObject. unfold jsor. rewrite Ht.
  destruct (get_key "env" (overrideData c id)) eqn:E; try discriminate; try reflexivity.
  by destruct (Hno fields).
Qed.

(** ** Loading *)

Lemma loadIfExist_found fs dirPath c :
  loadIfExist fs dirPath = Ok (Some c) ->
  (exists content parsed,
      fs !! composeBitJsoncPath dirPath = Some (File content) /\
      parse content = Some parsed /\
      c = set_path (fromObject parsed) (composeBitJsoncPath dirPath)) \/
  (fs !! composeBitJsoncPath dirPath = None /\
   exists l, legacy_loadIfExist fs dirPath = inr (Some l) /\
             c = fromLegacyConfig (Some l)).
Proof.
  unfold loadIfExist, pathHasBitJsonc, pathExists, _loadFromBitJsonc, readFile.
  destruct (fs !! composeBitJsoncPath dirPath) as [[content|]|] eqn:E; cbn.
  - destruct (parse content) as [parsed|] eqn:P; cbn; [|discriminate].
    intros [= <-]. left. by exists content, parsed.
  - discriminate.
  - destruct (legacy_loadIfExist fs dirPath) as [msg|[l|]] eqn:L; try discriminate.
    intros [= <-]. right. split; [done|]. by exists l.
Qed.

(** ** Reachable configurations *)

Lemma payload_invariant_new d l :
  (truthy d = true -> l = None) -> payload_invariant (new_WorkspaceConfig d l).
Proof. intros Hd. split; [exact Hd | reflexivity]. Qed.

Lemma payload_invariant_set_path c p :
  payload_invariant c -> payload_invariant (set_path c p).
Proof. intros [Hex Hs]. split; [exact Hex | exact Hs]. Qed.

Lemma payload_invariant_create props dirPath : payload_invariant (create props dirPath).
Proof.
  unfold create. destruct dirPath as [d|]; [destruct (truthy (VStr d))|];
    try apply payload_invariant_set_path; by apply payload_invariant_new.
Qed.

Lemma payload_invariant_loadIfExist fs dirPath c :
  loadIfExist fs dirPath = Ok (Some c) -> payload_invariant c.
Proof.
  intros Hload. apply loadIfExist_found in Hload
    as [(content & parsed & _ & _ & ->)|(_ & l & _ & ->)].
  - apply payload_invariant_set_path. by apply payload_invariant_new.
  - by apply payload_invariant_new.
Qed.

Lemma payload_invariant_ensure fs dirPath props c :
  ensure fs dirPath props = Ok c -> payload_invariant c.
Proof.
  unfold ensure.
  destruct (loadIfExist fs dirPath) as [[found|]|e] eqn:E; unfold mbind, result_bind.
  - intros [= <-]. by eapply payload_invariant_loadIfExist.
  - intros Heq. replace c with (create (default (VObj []) props) (Some dirPath))
      by congruence. apply payload_invariant_create.
  - discriminate.
Qed.

Lemma built_payload_invariant c : built c -> payload_invariant c.
Proof.
  induction 1 as [d|l|props dirPath|fs dirPath c Hload|fs dirPath props c Hens|c p _ IH].
  - by apply payload_invariant_new.
  - by apply payload_invariant_new.
  - apply payload_invariant_create.
  - by eapply payload_invariant_loadIfExist.
  - by eapply payload_invariant_ensure.
  - by apply payload_invariant_set_path.
Qed.

(** C1.  For a config wrapping a legacy config [l]: when no override pattern
    matches the component id, [getComponentConfig] returns a record whose
    [env.compiler] is the legacy root compiler and whose [env.tester] is the
    legacy root tester; when the Override Table's merged record supplies
    [env.compiler] (resp. [env.tester]), the call returns a record with that
    very value: the override wins over the legacy fallback.  A field the
    record does not supply (absent, or holding a falsy value) is filled from
    the legacy root whenever the record's [env] is absent, falsy or an
    object. *)
Theorem getComponentConfig_env_fallback c l id :
  legacyConfig c = Some l ->
  (no_matching_override c id = true ->
     exists r, getComponentConfig c id = Ok r /\
       get_prop (get_key "env" r) "compiler" = legacy_compiler l /\
       get_prop (get_key "env" r) "tester" = legacy_tester l) /\
  (forall C2, supplies (overrideData c id) "compiler" C2 ->
     exists r, getComponentConfig c id = Ok r /\
       get_prop (get_key "env" r) "compiler" = C2) /\
  (forall T2, supplies (overrideData c id) "tester" T2 ->
     exists r, getComponentConfig c id = Ok r /\
       get_prop (get_key "env" r) "tester" = T2) /\
  (truthy (get_key "env" (overrideData c id)) = false \/
   (exists o, get_key "env" (overrideData c id) = VObj o) ->
   exists r, getComponentConfig c id = Ok r /\
     (truthy (get_prop (get_key "env" (overrideData c id)) "compiler") = false ->
        get_prop (get_key "env" r) "compiler" = legacy_compiler l) /\
     (truthy (get_prop (get_key "env" (overrideData c id)) "tester") = false ->
        get_prop (get_key "env" r) "tester" = legacy_tester l)).
Proof.
  intros Hl. split; [|split; [|split]].
  - intros Hno. apply overrideData_no_match in Hno.
    rewrite (getComponentConfig_legacy c l id []); [|done|by rewrite Hno].
    rewrite Hno. eexists. split; [reflexivity|]. split; reflexivity.
  - intros C2 [HC2 Ht].
    destruct (get_key "env" (overrideData c id)) as [| |b|n|s|o] eqn:E;
      cbn in HC2; subst C2; try discriminate.
    rewrite (getComponentConfig_legacy c l id o); [|done|by rewrite E].
    eexists. split; [reflexivity|].
    rewrite get_key_set_key_eq. cbn [get_prop].
    rewrite get_key_set_key_ne by done. rewrite get_key_set_key_eq.
    unfold jsor. by rewrite Ht.
  - intros T2 [HT2 Ht].
    destruct (get_key "env" (overrideData c id)) as [| |b|n|s|o] eqn:E;
      cbn in HT2; subst T2; try discriminate.
    rewrite (getComponentConfig_legacy c l id o); [|done|by rewrite E].
    eexists. split; [reflexivity|].
    rewrite get_key_set_key_eq. cbn [get_prop].
    rewrite get_key_set_key_eq.
    unfold jsor. by rewrite Ht.
  - intros Henv.
    assert (Hobj : exists o,
      jsor (get_key "env" (overrideData c id)) (VObj []) = VObj o /\
      forall k, get_prop (get_key "env" (overrideData c id)) k = get_key k o).
    { destruct Henv as [Hf|[o Ho]].
      - exists []. split; [unfold jsor; by rewrite Hf|].
        intros k. by destruct (get_key "env" (overrideData c id)).
      - exists o. rewrite Ho. by split. }
    destruct Hobj as (o & Ho & Hread).
    rewrite (getComponentConfig_legacy c l id o Hl Ho), !Hread.
    eexists. split; [reflexivity|].
    rewrite get_key_set_key_eq. cbn [get_prop]. split.
    + intros Hf. rewrite get_key_set_key_ne by done. rewrite get_key_set_key_eq.
      unfold jsor. by rewrite Hf.
    + intros Hf. rewrite get_key_set_key_eq. unfold jsor. by rewrite Hf.
Qed.

Lemma legacy_result_frame (config o : obj) C T :
  let r := set_key "env" (VObj (set_key "tester" T (set_key "compiler" C o))) config in
  (forall k, k <> "env" -> lookup_key k r = lookup_key k config) /\
  keys r = (if has_key "env" config then keys config else (keys config ++ ["env"])%list) /\
  (forall k, k <> "compiler" -> k <> "tester" ->
     get_prop (get_key "env" r) k = get_key k o).
Proof.
  cbn zeta. split; [|split].
  - intros k Hk. by rewrite lookup_key_set_key_ne.
  - apply keys_set_key.
  - intros k Hk1 Hk2. rewrite get_key_set_key_eq. cbn [get_prop].
    by rewrite !get_key_set_key_ne.
Qed.

(** C2 (amended).  [getComponentConfig] either returns or, when a legacy
    config is wrapped and the override's [env] is a truthy primitive, throws a
    TypeError.  The record it returns has every field other than [env] as the
    Override Table supplied it, in the same key order ([env] is appended only
    when the fallback had to create it), and inside [env] every field other
    than [compiler] and [tester] as supplied.  A config that wraps no legacy
    config gets the Override Table's record itself, with no legacy fallback
    at all, and every config holding modern data that the factories build is
    of that kind. *)
Theorem getComponentConfig_frame c id :
  match getComponentConfig c id with
  | Ok r =>
      (forall k, k <> "env" -> lookup_key k r = lookup_key k (overrideData c id)) /\
      keys r = (if has_legacy c && negb (has_key "env" (overrideData c id))
                then (keys (overrideData c id) ++ ["env"])%list
                else keys (overrideData c id)) /\
      (forall k, k <> "compiler" -> k <> "tester" ->
         get_prop (get_key "env" r) k = get_prop (get_key "env" (overrideData c id)) k) /\
      (legacyConfig c = None -> r = overrideData c id)
  | Throw e =>
      e = TypeError /\ has_legacy c = true /\
      truthy (get_key "env" (overrideData c id)) = true /\
      forall o, get_key "env" (overrideData c id) <> VObj o
  end /\
  (built c -> has_modern c = true ->
   getComponentConfig c id = Ok (overrideData c id)).
Proof.
  split.
  - unfold has_legacy. destruct (legacyConfig c) as [l|] eqn:Hl.
    + assert (Hobj : forall o,
        jsor (get_key "env" (overrideData c id)) (VObj []) = VObj o ->
        (forall k, get_prop (get_key "env" (overrideData c id)) k = get_key k o) ->
        match getComponentConfig c id with
        | Ok r =>
            (forall k, k <> "env" -> lookup_key k r = lookup_key k (overrideData c id)) /\
            keys r = (if true && negb (has_key "env" (overrideData c id))
                      then (keys (overrideData c id) ++ ["env"])%list
                      else keys (overrideData c id)) /\
            (forall k, k <> "compiler" -> k <> "tester" ->
               get_prop (get_key "env" r) k =
               get_prop (get_key "env" (overrideData c id)) k) /\
            (Some l = None -> r = overrideData c id)
        | Throw e =>
            e = TypeError /\ true = true /\
            truthy (get_key "env" (overrideData c id)) = true /\
            forall o, get_key "env" (overrideData c id) <> VObj o
        end).
      { intros o Ho Hread. rewrite (getComponentConfig_legacy c l id o Hl Ho).
        edestruct (legacy_result_frame (overrideData c id) o) as (F1 & F2 & F3).
        split; [exact F1|]. split; [|split; [|discriminate]].
        - rewrite F2. by destruct (has_key "env" (overrideData c id)).
        - intros k Hk1 Hk2. rewrite Hread. by apply F3. }
      destruct (truthy (get_key "env" (overrideData c id))) eqn:Ht.
      * destruct (get_key "env" (overrideData c id)) as [| |b|n|s|o] eqn:E;
          try discriminate.
        4: { apply (Hobj o); [reflexivity | done]. }
        all: rewrite (getComponentConfig_legacy_primitive c l id Hl);
          [ repeat split; try done; by rewrite E
          | by rewrite E | by rewrite E ].
      * apply (Hobj []).
        -- unfold jsor. by rewrite Ht.
        -- intros k. by destruct (get_key "env" (overrideData c id)).
    + rewrite getComponentConfig_modern by done. repeat split; done.
  - intros Hb Hm. apply getComponentConfig_modern.
    by apply (built_payload_invariant c Hb).
Qed.

(** ** Load, ensure and write *)

Lemma truthy_VStr s : truthy (VStr s) = true <-> s <> "".
Proof.
  cbn. rewrite negb_true_iff. split.
  - intros E ->. by rewrite String.eqb_refl in E.
  - intros Hne. by apply String.eqb_neq.
Qed.

Lemma loadIfExist_file fs dirPath content :
  fs !! composeBitJsoncPath dirPath = Some (File content) ->
  loadIfExist fs dirPath =
    match parse content with
    | Some parsed => Ok (Some (set_path (fromObject parsed) (composeBitJsoncPath dirPath)))
    | None => Throw (InvalidConfigFile (composeBitJsoncPath dirPath))
    end.
Proof.
  intros E. unfold loadIfExist, pathHasBitJsonc, pathExists, _loadFromBitJsonc, readFile.
  rewrite E. cbn. by destruct (parse content).
Qed.

Lemma loadIfExist_directory fs dirPath :
  fs !! composeBitJsoncPath dirPath = Some Dir ->
  loadIfExist fs dirPath = Throw (External "EISDIR").
Proof.
  intros E. unfold loadIfExist, pathHasBitJsonc, pathExists, _loadFromBitJsonc, readFile.
  by rewrite E.
Qed.

Lemma loadIfExist_absent fs dirPath :
  fs !! composeBitJsoncPath dirPath = None ->
  loadIfExist fs dirPath =
    match legacy_loadIfExist fs dirPath with
    | inl msg => Throw (External msg)
    | inr (Some l) => Ok (Some (fromLegacyConfig (Some l)))
    | inr None => Ok None
    end.
Proof.
  intros E. unfold loadIfExist, pathHasBitJsonc, pathExists. by rewrite E.
Qed.

Lemma ensure_cases fs dirPath props :
  ensure fs dirPath props =
    match loadIfExist fs dirPath with
    | Ok (Some found) => Ok found
    | Ok None => Ok (create (default (VObj []) props) (Some dirPath))
    | Throw e => Throw e
    end.
Proof. unfold ensure. by destruct (loadIfExist fs dirPath) as [[?|]|?]. Qed.

Lemma create_data props dirPath :
  data (create props dirPath) = VObj (assign template props) /\
  legacyConfig (create props dirPath) = None.
Proof.
  unfold create. destruct dirPath as [d|]; [destruct (truthy (VStr d))|]; done.
Qed.


Lemma write_modern c workspaceDir :
  has_modern c = true ->
  workspaceDir <> "" ->
  write c workspaceDir =
    Ok [Persist [mkVinyl workspaceDir (composeBitJsoncPath workspaceDir)
                   (stringify (data c))]].
Proof.
  unfold has_modern, write, toVinyl, new_AbstractVinyl. intros -> Hne.
  by rewrite (proj2 (truthy_VStr workspaceDir) Hne).
Qed.

Lemma write_modern_empty c :
  has_modern c = true ->
  toVinyl c "" = Throw (External "base must be a non-empty string, or null/undefined.") /\
  write c "" = Throw (External "base must be a non-empty string, or null/undefined.").
Proof. unfold has_modern, write, toVinyl, new_AbstractVinyl. by intros ->. Qed.

Lemma write_legacy c workspaceDir :
  has_modern c = false ->
  write c workspaceDir =
    Ok match legacyConfig c with
       | Some l => [LegacyWrite l workspaceDir]
       | None => []
       end.
Proof. unfold has_modern, write. by intros ->. Qed.



(** C4.  [loadIfExist] raises [InvalidConfigFile] exactly when the modern
    config file exists under the directory and its contents fail to parse (the
    error names that file); when neither the modern file nor a legacy config
    is found it returns "not found" without raising; when the modern file
    exists and parses it returns the config built from the parsed payload,
    with its path set to the file's path. *)
Theorem loadIfExist_outcomes fs dirPath :
  (forall p, loadIfExist fs dirPath = Throw (InvalidConfigFile p) <->
     p = composeBitJsoncPath dirPath /\
     exists content, fs !! composeBitJsoncPath dirPath = Some (File content) /\
                     parse content = None) /\
  (fs !! composeBitJsoncPath dirPath = None ->
   legacy_loadIfExist fs dirPath = inr None ->
   loadIfExist fs dirPath = Ok None) /\
  (forall content parsed,
     fs !! composeBitJsoncPath dirPath = Some (File content) ->
     parse content = Some parsed ->
     exists c, loadIfExist fs dirPath = Ok (Some c) /\
       c = set_path (fromObject parsed) (composeBitJsoncPath dirPath) /\
       data c = parsed /\
       _path c = Some (composeBitJsoncPath dirPath)).
Proof.
  split; [|split].
  - intros p. split.
    + destruct (fs !! composeBitJsoncPath dirPath) as [[content|]|] eqn:E.
      * rewrite (loadIfExist_file _ _ _ E).
        destruct (parse content) eqn:P; [discriminate|].
        intros [= <-]. split; [done|]. by exists content.
      * by rewrite (loadIfExist_directory _ _ E).
      * rewrite (loadIfExist_absent _ _ E).
        by destruct (legacy_loadIfExist fs dirPath) as [msg|[l|]].
    + intros (-> & content & E & P). by rewrite (loadIfExist_file _ _ _ E), P.
  - intros E L. by rewrite (loadIfExist_absent _ _ E), L.
  - intros content parsed E P. eexists. rewrite (loadIfExist_file _ _ _ E), P.
    by repeat split.
Qed.

(** C6 (amended).  Reading [path]: an explicitly set non-empty path wins; with
    no path set, or the empty string set, a non-empty path of the wrapped
    legacy config is returned; otherwise the result is the empty string (the
    getter always yields a string).  After setting the path to a non-empty
    [p], reading it returns [p]; after setting it to the empty string,
    reading it returns the legacy path, or the empty string when there is
    none. *)
Theorem path_precedence c :
  (forall p, _path c = Some p -> p <> "" -> path c = p) /\
  (forall l q, _path c = None \/ _path c = Some "" ->
     legacyConfig c = Some l -> legacy_path l = Some q -> q <> "" -> path c = q) /\
  (_path c = None \/ _path c = Some "" ->
   legacyConfig c ≫= legacy_path = None \/ legacyConfig c ≫= legacy_path = Some "" ->
   path c = "") /\
  (forall p, p <> "" -> path (set_path c p) = p) /\
  path (set_path c "") = str_or (legacyConfig c ≫= legacy_path) "".
Proof.
  unfold path. split; [|split; [|split; [|split]]].
  - intros p -> Hp. cbn [str_or]. by rewrite (proj2 (truthy_VStr p) Hp).
  - intros l q Hnone -> Hq Hne. cbn [mbind option_bind]. rewrite Hq. cbn [str_or].
    rewrite (proj2 (truthy_VStr q) Hne). by destruct Hnone as [->| ->].
  - intros Hnone Hleg.
    assert (str_or (legacyConfig c ≫= legacy_path) "" = "") as ->
      by (by destruct Hleg as [->| ->]).
    by destruct Hnone as [->| ->].
  - intros p Hp. cbn [set_path _path str_or]. by rewrite (proj2 (truthy_VStr p) Hp).
  - reflexivity.
Qed.

(** C8.  [write] to a workspace directory (an absolute path, hence not the
    empty string): a config holding modern data hands exactly one virtual
    file to the persistence collaborator, whose contents is the serialised
    data and whose path is the computed [bit.jsonc] path under
    [workspaceDir], so that after the call that path holds that file; a
    config holding only legacy data delegates exactly one write to the Legacy
    Bridge and persists no file itself.  Whatever the arguments, a call
    persists at most one file and issues at most one effect; a call that
    throws (modern data with the empty string as [workspaceDir]) issues
    none. *)
Theorem write_effects c workspaceDir :
  (has_modern c = true -> workspaceDir <> "" ->
     write c workspaceDir =
       Ok [Persist [mkVinyl workspaceDir (composeBitJsoncPath workspaceDir)
                      (stringify (data c))]] /\
     forall fs, run_write c workspaceDir fs =
       <[composeBitJsoncPath workspaceDir := File (stringify (data c))]> fs) /\
  (has_modern c = false -> forall l, legacyConfig c = Some l ->
     write c workspaceDir = Ok [LegacyWrite l workspaceDir] /\
     forall fs, run_write c workspaceDir fs = legacy_write l workspaceDir fs) /\
  (has_modern c = false -> legacyConfig c = None ->
     write c workspaceDir = Ok [] /\ forall fs, run_write c workspaceDir fs = fs) /\
  files_persisted (effects_of (write c workspaceDir)) <= 1 /\
  legacy_writes (effects_of (write c workspaceDir)) <= 1 /\
  length (effects_of (write c workspaceDir)) <= 1 /\
  (forall e, write c workspaceDir = Throw e ->
     has_modern c = true /\ workspaceDir = "" /\
     forall fs, run_write c workspaceDir fs = fs).
Proof.
  split; [|split; [|split]].
  - intros Hm Hne. unfold run_write. by rewrite write_modern.
  - intros Hm l Hl. unfold run_write. by rewrite write_legacy, Hl.
  - intros Hm Hl. unfold run_write. by rewrite write_legacy, Hl.
  - destruct (has_modern c) eqn:Hm.
    + destruct (decide (workspaceDir = "")) as [->|Hne].
      * destruct (write_modern_empty c Hm) as [_ Hthrow].
        unfold run_write. rewrite Hthrow. cbn. repeat split; try lia; done.
      * rewrite write_modern by done. cbn. repeat split; try lia; discriminate.
    + rewrite write_legacy by done.
      destruct (legacyConfig c); cbn; repeat split; try lia; discriminate.
Qed.

(** C10.  A config built from modern data wraps no legacy config, and its
    [lang] is the default language constant whatever the payload holds: for
    [fromObject], for [create], for any config without a legacy config, and
    for every reachable config holding modern data. *)
Theorem lang_modern_default :
  (forall d, lang (fromObject d) = DEFAULT_LANGUAGE) /\
  (forall props dirPath, lang (create props dirPath) = DEFAULT_LANGUAGE) /\
  (forall c, legacyConfig c = None -> lang c = DEFAULT_LANGUAGE) /\
  (forall c, built c -> has_modern c = true -> lang c = DEFAULT_LANGUAGE).
Proof.
  assert (Hnone : forall c, legacyConfig c = None -> lang c = DEFAULT_LANGUAGE).
  { intros c Hl. unfold lang. by rewrite Hl. }
  split; [|split; [|split]].
  - intros d. by apply Hnone.
  - intros props dirPath. apply Hnone. apply create_data.
  - exact Hnone.
  - intros c Hb Hm. apply Hnone. by apply (built_payload_invariant c Hb).
Qed.

(** C9 (amended).  A configuration reachable through [fromObject],
    [fromLegacyConfig], [create], [loadIfExist] and [ensure] (and the [path]
    setter) never holds both payloads, and its [workspaceSettings] is derived
    from [data.workspace] when the modern payload is non-empty and from the
    legacy config otherwise.  It holds exactly one payload when built by
    [create], by [fromObject] from a truthy payload or by [fromLegacyConfig]
    from a legacy config; one that [loadIfExist] or [ensure] returns holds
    exactly one unless the modern config file parsed to a falsy value, which
    the configuration then carries as its data, holding neither payload. *)
Theorem reachable_payloads :
  (forall c, built c ->
     has_modern c && has_legacy c = false /\ settings_derived c) /\
  (forall d, truthy d = true -> exactly_one_payload (fromObject d)) /\
  (forall l, exactly_one_payload (fromLegacyConfig (Some l))) /\
  (forall props dirPath, exactly_one_payload (create props dirPath)) /\
  (forall fs dirPath c, loadIfExist fs dirPath = Ok (Some c) ->
     exactly_one_payload c \/
     exists content, fs !! composeBitJsoncPath dirPath = Some (File content) /\
       parse content = Some (data c) /\ truthy (data c) = false /\
       legacyConfig c = None) /\
  (forall fs dirPath props c, ensure fs dirPath props = Ok c ->
     exactly_one_payload c \/
     exists content, fs !! composeBitJsoncPath dirPath = Some (File content) /\
       parse content = Some (data c) /\ truthy (data c) = false /\
       legacyConfig c = None).
Proof.
  assert (Hcreate : forall props dirPath, exactly_one_payload (create props dirPath)).
  { intros props dirPath. unfold exactly_one_payload, has_modern, has_legacy.
    destruct (create_data props dirPath) as [-> ->]. done. }
  assert (Hload : forall fs dirPath c, loadIfExist fs dirPath = Ok (Some c) ->
     exactly_one_payload c \/
     exists content, fs !! composeBitJsoncPath dirPath = Some (File content) /\
       parse content = Some (data c) /\ truthy (data c) = false /\
       legacyConfig c = None).
  { intros fs dirPath c Hc.
    apply loadIfExist_found in Hc as [(content & parsed & E & P & ->)|(_ & l & _ & ->)].
    - destruct (truthy parsed) eqn:T.
      + left. unfold exactly_one_payload, has_modern, has_legacy. cbn. by rewrite T.
      + right. by exists content.
    - by left. }
  split; [|split; [|split; [|split; [|split]]]].
  - intros c Hb. destruct (built_payload_invariant c Hb) as [Hex Hs].
    split; [|done]. destruct (has_modern c); [|done].
    unfold has_legacy. by rewrite Hex.
  - intros d Hd. unfold exactly_one_payload, has_modern, has_legacy. cbn. by rewrite Hd.
  - done.
  - exact Hcreate.
  - exact Hload.
  - intros fs dirPath props c. rewrite ensure_cases.
    destruct (loadIfExist fs dirPath) as [[found|]|e] eqn:E; try discriminate.
    + intros [= ->]. by eapply Hload.
    + intros Heq. left.
      replace c with (create (default (VObj []) props) (Some dirPath)) by congruence.
      apply Hcreate.
Qed.

(** ** Partitioning the settings *)

Lemma lookup_key_get_key k (o : obj) :
  lookup_key k o = if has_key k o then Some (get_key k o) else None.
Proof. unfold has_key, get_key. by destruct (lookup_key k o). Qed.

Lemma lookup_key_pick names (o : obj) k :
  lookup_key k (pick names o) =
    if bool_decide (k ∈ names) then lookup_key k o else None.
Proof.
  unfold pick.
  assert (Hloop : forall acc,
    lookup_key k (fold_left
       (fun r n => if has_key n o then set_key n (get_key n o) r else r) names acc) =
    if bool_decide (k ∈ names) && has_key k o then Some (get_key k o)
    else lookup_key k acc).
  { induction names as [|n ns IH]; intros acc.
    - case_bool_decide as Hin; [by apply elem_of_nil in Hin | done].
    - cbn [fold_left]. rewrite IH.
      destruct (decide (k = n)) as [->|Hne].
      + rewrite (bool_decide_eq_true_2 (n ∈ n :: ns)); [|by left].
        destruct (has_key n o) eqn:Hk; rewrite ?andb_false_r; [|done].
        rewrite lookup_key_set_key_eq. by destruct (bool_decide (n ∈ ns)).
      + assert (bool_decide (k ∈ n :: ns) = bool_decide (k ∈ ns)) as ->.
        { apply bool_decide_ext. rewrite elem_of_cons. split; [by intros [?|?] | by right]. }
        destruct (bool_decide (k ∈ ns) && has_key k o); [done|].
        destruct (has_key n o); [by rewrite lookup_key_set_key_ne | done]. }
  rewrite Hloop, (lookup_key_get_key k o). cbn [lookup_key].
  by destruct (bool_decide (k ∈ names)), (has_key k o).
Qed.

Lemma lookup_key_omit names (o : obj) k :
  lookup_key k (omit names o) =
    if bool_decide (k ∈ names) then None else lookup_key k o.
Proof.
  unfold omit.
  assert (Hloop : forall ks acc,
    lookup_key k (fold_left
       (fun r p => if bool_decide (p ∈ names) then r else set_key p (get_key p o) r)
       ks acc) =
    if bool_decide (k ∈ ks) && negb (bool_decide (k ∈ names)) then Some (get_key k o)
    else lookup_key k acc).
  { induction ks as [|p ps IH]; intros acc.
    - case_bool_decide as Hin; [by apply elem_of_nil in Hin | done].
    - cbn [fold_left]. rewrite IH.
      destruct (decide (k = p)) as [->|Hne].
      + rewrite (bool_decide_eq_true_2 (p ∈ p :: ps)); [|by left].
        destruct (bool_decide (p ∈ names)); rewrite ?andb_false_r; [done|].
        rewrite lookup_key_set_key_eq. by destruct (bool_decide (p ∈ ps)).
      + assert (bool_decide (k ∈ p :: ps) = bool_decide (k ∈ ps)) as ->.
        { apply bool_decide_ext. rewrite elem_of_cons. split; [by intros [?|?] | by right]. }
        destruct (bool_decide (k ∈ ps) && negb (bool_decide (k ∈ names))); [done|].
        destruct (bool_decide (p ∈ names)); [done | by rewrite lookup_key_set_key_ne]. }
  rewrite Hloop, (lookup_key_get_key k o). cbn [lookup_key].
  assert (bool_decide (k ∈ keys o) = has_key k o) as ->.
  { destruct (has_key k o) eqn:Hk.
    - apply bool_decide_eq_true_2. by apply has_key_elem.
    - apply bool_decide_eq_false_2. intros Hin. apply has_key_elem in Hin. congruence. }
  by destruct (has_key k o), (bool_decide (k ∈ names)).
Qed.

(** C5 (amended).  [getCoreExtensionsConfig] is a total function of the
    settings.  Its result has a [workspace] key holding exactly the fields
    [defaultScope] and [componentsDefaultDirectory] that the settings have,
    with their values; the two fixed fields do not appear at the top level;
    every other settings field, except one itself named [workspace], appears
    unchanged at the top level.  On the settings
    [{ defaultScope: "s", componentsDefaultDirectory: "d", lang: "ts" }] the
    result is [{ lang: "ts", workspace: { defaultScope: "s",
    componentsDefaultDirectory: "d" } }]. *)
Theorem getCoreExtensionsConfig_partition c :
  let settings := settings_fields (workspaceSettings c) in
  let result := getCoreExtensionsConfig c in
  (exists w, lookup_key "workspace" result = Some (VObj w) /\
     forall k, lookup_key k w =
       if bool_decide (k ∈ workspaceExtPropNames) then lookup_key k settings else None) /\
  (forall k, k ∈ workspaceExtPropNames -> lookup_key k result = None) /\
  (forall k, k ∉ workspaceExtPropNames -> k <> "workspace" ->
     lookup_key k result = lookup_key k settings) /\
  getCoreExtensionsConfig
    (fromObject (VObj [("workspace",
       VObj [("defaultScope", VStr "s");
             ("componentsDefaultDirectory", VStr "d");
             ("lang", VStr "ts")])])) =
    [("lang", VStr "ts");
     ("workspace", VObj [("defaultScope", VStr "s");
                         ("componentsDefaultDirectory", VStr "d")])].
Proof.
  cbn zeta. unfold getCoreExtensionsConfig. split; [|split; [|split]].
  - eexists. split; [apply lookup_key_set_key_eq|].
    intros k. apply lookup_key_pick.
  - intros k Hk. rewrite lookup_key_set_key_ne.
    + rewrite lookup_key_omit. by rewrite bool_decide_eq_true_2.
    + intros <-. unfold workspaceExtPropNames in Hk.
      rewrite !elem_of_cons in Hk. destruct Hk as [?|[?|Hk]]; try discriminate.
      by apply elem_of_nil in Hk.
  - intros k Hk Hw. rewrite lookup_key_set_key_ne by done.
    rewrite lookup_key_omit. by rewrite bool_decide_eq_false_2.
  - reflexivity.
Qed.

(** ** Merging over the template *)

Lemma keys_assign_loop (s : obj) (ks : list string) (t : obj) :
  exists added,
    keys (fold_left (fun t k => set_key k (get_key k s) t) ks t) = (keys t ++ added)%list.
Proof.
  revert t. induction ks as [|k ks IH]; intros t; cbn [fold_left].
  - exists []. by rewrite app_nil_r.
  - destruct (IH (set_key k (get_key k s) t)) as [added Ha]. rewrite Ha, keys_set_key.
    destruct (has_key k t).
    + by exists added.
    + exists (k :: added). by rewrite <- app_assoc.
Qed.

(** C7 (amended).  In [create] the data of the new config is [props] merged
    over the parsed template by a shallow merge: a key of [props] takes
    [props]'s value, every other template key keeps the template's value, the
    template's keys keep their order and new keys follow them; [props] that is
    not an object leaves the template's fields as they are.  The merge is
    written into the object the template was just parsed into, and [merged]
    is that same object, not a new structure; that object is new in every
    call and no object that existed before the call is changed. *)
Theorem create_merge props dirPath :
  let merged := assign template props in
  data (create props dirPath) = VObj merged /\
  (forall p k, props = VObj p -> has_key k p = true ->
     lookup_key k merged = Some (get_key k p)) /\
  (forall p k, props = VObj p -> has_key k p = false ->
     lookup_key k merged = lookup_key k template) /\
  ((forall p, props <> VObj p) -> merged = template) /\
  (exists added, keys merged = (keys template ++ added)%list) /\
  (forall st,
     let '(template_ref, merged_ref, st') := create_refs props st in
     merged_ref = template_ref /\
     template_ref = length st /\
     Refs.deref st' merged_ref = merged /\
     forall r, r < length st -> st' !! r = st !! r).
Proof.
  cbn zeta. split; [apply create_data|]. split; [|split; [|split; [|split]]].
  - intros p k -> Hk. by rewrite lookup_key_assign, Hk.
  - intros p k -> Hk. by rewrite lookup_key_assign, Hk.
  - intros Hno. destruct props; try reflexivity. by destruct (Hno fields).
  - destruct props; try (exists []; by rewrite app_nil_r).
    apply keys_assign_loop.
  - intros st. unfold create_refs, Refs.alloc, Refs.assign_ref, Refs.deref.
    split; [done|]. split; [done|]. split.
    + rewrite list_lookup_alter_eq.
      rewrite lookup_app_r by done. by rewrite Nat.sub_diag.
    + intros r Hr. rewrite list_lookup_alter_ne by lia. by apply lookup_app_l.
Qed.

(** ** Further properties of loading *)

(** X1.  When the modern config file is there, [loadIfExist] looks at nothing
    else: two file systems that agree on the node at the [bit.jsonc] path give
    the same outcome, whatever else they hold and whatever the Legacy Bridge
    would find in them; the outcome is never "not found", and a config it
    returns wraps no legacy config and has the [bit.jsonc] path assigned. *)
Theorem loadIfExist_modern_precedence fs1 fs2 dirPath n :
  fs1 !! composeBitJsoncPath dirPath = Some n ->
  fs2 !! composeBitJsoncPath dirPath = Some n ->
  loadIfExist fs1 dirPath = loadIfExist fs2 dirPath /\
  loadIfExist fs1 dirPath <> Ok None /\
  (forall c, loadIfExist fs1 dirPath = Ok (Some c) ->
     legacyConfig c = None /\ _path c = Some (composeBitJsoncPath dirPath)).
Proof.
  intros E1 E2. destruct n as [content|].
  - rewrite (loadIfExist_file _ _ _ E1), (loadIfExist_file _ _ _ E2).
    split; [done|]. split; [by destruct (parse content)|].
    intros c. destruct (parse content) as [parsed|] eqn:P; [|discriminate].
    by intros [= <-].
  - rewrite (loadIfExist_directory _ _ E1), (loadIfExist_directory _ _ E2).
    by repeat split.
Qed.

(** X2.  The errors of [loadIfExist]: it raises [InvalidConfigFile] for a
    modern file that fails to parse, the read error when the [bit.jsonc] path
    is a directory, and the Legacy Bridge's own error, unchanged, when the
    modern file is absent and the bridge's load throws; it raises nothing
    else, in particular never a TypeError. *)
Theorem loadIfExist_errors fs dirPath e :
  loadIfExist fs dirPath = Throw e <->
  (exists content, fs !! composeBitJsoncPath dirPath = Some (File content) /\
     parse content = None /\ e = InvalidConfigFile (composeBitJsoncPath dirPath)) \/
  (fs !! composeBitJsoncPath dirPath = Some Dir /\ e = External "EISDIR") \/
  (fs !! composeBitJsoncPath dirPath = None /\
   exists msg, legacy_loadIfExist fs dirPath = inl msg /\ e = External msg).
Proof.
  destruct (fs !! composeBitJsoncPath dirPath) as [[content|]|] eqn:E.
  - rewrite (loadIfExist_file _ _ _ E). split.
    + destruct (parse content) eqn:P; [discriminate|].
      intros [= <-]. left. by exists content.
    + intros [(content' & [= <-] & P & ->)|[[? _]|[? _]]]; try discriminate.
      by rewrite P.
  - rewrite (loadIfExist_directory _ _ E). split.
    + intros [= <-]. right. by left.
    + intros [(content' & ? & _)|[[_ ->]|[? _]]]; try discriminate. done.
  - rewrite (loadIfExist_absent _ _ E). split.
    + destruct (legacy_loadIfExist fs dirPath) as [msg|[l|]]; try discriminate.
      intros [= <-]. right. right. split; [done|]. by exists msg.
    + intros [(content' & ? & _)|[[? _]|[_ (msg & -> & ->)]]]; try discriminate.
      done.
Qed.

(** X3.  [_loadFromBitJsonc] reads before it enters its [try]: on a path that
    does not exist it raises the file system's error, not [InvalidConfigFile];
    [InvalidConfigFile] names the path it was given and means the file was
    read and did not parse.  A config it returns carries the parsed payload,
    wraps no legacy config and has no path assigned yet. *)
Theorem loadFromBitJsonc_outcomes fs p :
  (fs !! p = None -> exists msg, _loadFromBitJsonc fs p = Throw (External msg)) /\
  (forall q, _loadFromBitJsonc fs p = Throw (InvalidConfigFile q) <->
     q = p /\ exists content, fs !! p = Some (File content) /\ parse content = None) /\
  (forall c, _loadFromBitJsonc fs p = Ok c <->
     exists content parsed, fs !! p = Some (File content) /\
       parse content = Some parsed /\ c = fromObject parsed) /\
  (forall c, _loadFromBitJsonc fs p = Ok c -> _path c = None /\ legacyConfig c = None).
Proof.
  unfold _loadFromBitJsonc, readFile.
  destruct (fs !! p) as [[content|]|] eqn:E; cbn.
  - split; [discriminate|]. destruct (parse content) as [parsed|] eqn:P.
    + split; [|split].
      * intros q. split; [discriminate|].
        intros (_ & content' & Hf & Hp). congruence.
      * intros c. split.
        -- intros [= <-]. by exists content, parsed.
        -- intros (content' & parsed' & Hf & Hp & ->). congruence.
      * by intros c [= <-].
    + split; [|split].
      * intros q. split.
        -- intros [= <-]. split; [done|]. by exists content.
        -- by intros (-> & _).
      * intros c. split; [discriminate|].
        intros (content' & parsed' & Hf & Hp & _). congruence.
      * discriminate.
  - split; [discriminate|]. split; [|split].
    + intros q. split; [discriminate|]. intros (_ & content' & Hf & _). congruence.
    + intros c. split; [discriminate|]. intros (content' & parsed' & Hf & _). congruence.
    + discriminate.
  - split; [by eexists|]. split; [|split].
    + intros q. split; [discriminate|]. intros (_ & content' & Hf & _). congruence.
    + intros c. split; [discriminate|]. intros (content' & parsed' & Hf & _). congruence.
    + discriminate.
Qed.

(** X4.  [ensure] passes on every error of [loadIfExist] unchanged instead of
    creating a config: a modern config file that fails to parse makes it
    raise [InvalidConfigFile] for that file, a [bit.jsonc] path that is a
    directory makes it raise the read error, and a failing Legacy Bridge load
    makes it raise the bridge's error. *)
Theorem ensure_errors fs dirPath props :
  (forall e, loadIfExist fs dirPath = Throw e -> ensure fs dirPath props = Throw e) /\
  (forall content, fs !! composeBitJsoncPath dirPath = Some (File content) ->
     parse content = None ->
     ensure fs dirPath props = Throw (InvalidConfigFile (composeBitJsoncPath dirPath))) /\
  (fs !! composeBitJsoncPath dirPath = Some Dir ->
     ensure fs dirPath props = Throw (External "EISDIR")) /\
  (forall msg, fs !! composeBitJsoncPath dirPath = None ->
     legacy_loadIfExist fs dirPath = inl msg ->
     ensure fs dirPath props = Throw (External msg)).
Proof.
  rewrite ensure_cases. split; [|split; [|split]].
  - by intros e ->.
  - intros content E P. by rewrite (loadIfExist_file _ _ _ E), P.
  - intros E. by rewrite (loadIfExist_directory _ _ E).
  - intros msg E L. by rewrite (loadIfExist_absent _ _ E), L.
Qed.

(** ** Further properties of creation *)

Lemma assign_non_object t props :
  (props = VObj [] \/ forall p, props <> VObj p) -> assign t props = t.
Proof.
  intros [->|Hno]; [reflexivity|].
  destruct props; try reflexivity. by destruct (Hno fields).
Qed.

(** X5.  When nothing is found and [ensure] is called without props, with the
    empty object, or with props that are not an object, the config it creates
    holds exactly the template: same fields, same order, settings taken from
    the template's [workspace] section, no legacy config. *)
Theorem ensure_default_props fs dirPath props :
  loadIfExist fs dirPath = Ok None ->
  props = None \/ props = Some (VObj []) \/
    (exists v, props = Some v /\ forall p, v <> VObj p) ->
  exists c, ensure fs dirPath props = Ok c /\
    data c = VObj template /\
    workspaceSettings c = SettingsFromObject (get_key "workspace" template) /\
    legacyConfig c = None.
Proof.
  intros Hnone Hprops. rewrite ensure_cases, Hnone. eexists. split; [reflexivity|].
  assert (Ha : assign template (default (VObj []) props) = template).
  { apply assign_non_object.
    destruct Hprops as [->|[->|(v & -> & Hv)]]; [by left | by left | by right]. }
  unfold create. rewrite Ha. by destruct (truthy (VStr dirPath)).
Qed.

(** X6.  The settings of a created config come from the merged document: from
    [props.workspace] whenever [props] has a [workspace] key (even one whose
    value is not an object), and from the template's [workspace] section
    otherwise; likewise its override table is loaded from [props.components]
    when [props] has that key and from the template's otherwise.  Created
    without a directory, the config reads the empty string as its path. *)
Theorem create_settings props dirPath :
  workspaceSettings (create props dirPath) =
    SettingsFromObject (get_key "workspace" (assign template props)) /\
  componentsConfig (create props dirPath) =
    Some (ConsumerOverrides_load (get_key "components" (assign template props))) /\
  (forall p k, props = VObj p -> has_key k p = true ->
     get_key k (assign template props) = get_key k p) /\
  (forall p k, props = VObj p -> has_key k p = false ->
     get_key k (assign template props) = get_key k template) /\
  path (create props None) = "".
Proof.
  split; [|split; [|split; [|split]]].
  - unfold create. by destruct dirPath as [d|]; [destruct (truthy (VStr d))|].
  - unfold create, componentsConfig.
    by destruct dirPath as [d|]; [destruct (truthy (VStr d))|].
  - intros p k -> Hk. unfold get_key. by rewrite lookup_key_assign, Hk.
  - intros p k -> Hk. unfold get_key. by rewrite lookup_key_assign, Hk.
  - reflexivity.
Qed.

(** ** Writing and loading back *)

(** X7.  Round trip: a config holding modern data, written to a non-empty
    directory, is found there by [loadIfExist]; if the parser reads back the
    data from what the serializer wrote, the loaded config holds the same
    data, no legacy config, the [bit.jsonc] path of that directory, the same
    override table, and the settings the constructor derives from that data;
    for a config without a legacy config every component resolves as before. *)
Theorem write_load_roundtrip c workspaceDir fs :
  has_modern c = true ->
  workspaceDir <> "" ->
  parse (stringify (data c)) = Some (data c) ->
  pathHasBitJsonc (run_write c workspaceDir fs) workspaceDir = true /\
  exists c', loadIfExist (run_write c workspaceDir fs) workspaceDir = Ok (Some c') /\
    data c' = data c /\
    legacyConfig c' = None /\
    _path c' = Some (composeBitJsoncPath workspaceDir) /\
    componentsConfig c' = componentsConfig c /\
    (settings_derived c -> workspaceSettings c' = workspaceSettings c) /\
    (legacyConfig c = None -> forall id, getComponentConfig c' id = getComponentConfig c id).
Proof.
  intros Hm Hne Hrt.
  assert (Hfile : run_write c workspaceDir fs !! composeBitJsoncPath workspaceDir =
                  Some (File (stringify (data c)))).
  { unfold run_write. rewrite write_modern by done. cbn. apply lookup_insert_eq. }
  split.
  - unfold pathHasBitJsonc, pathExists. by rewrite Hfile.
  - rewrite (loadIfExist_file _ _ _ Hfile), Hrt. eexists. split; [reflexivity|].
    unfold has_modern in Hm.
    split; [done|]. split; [done|]. split; [done|]. split; [|split].
    + unfold componentsConfig. cbn. by rewrite Hm.
    + intros Hs. rewrite Hs. unfold has_modern. cbn. by rewrite Hm.
    + intros Hl id. unfold getComponentConfig, overrideData, componentsConfig,
        _legacyPlainObject. cbn. by rewrite Hl, Hm.
Qed.

(** ** Further properties of component resolution *)

(** X8.  With a wrapped legacy config, every record [getComponentConfig]
    returns has an [env] object in which both [compiler] and [tester] are
    present, each being the override's value when that is truthy and the
    legacy root's value otherwise (so a falsy override value is replaced). *)
Theorem getComponentConfig_env_values c l id r :
  legacyConfig c = Some l ->
  getComponentConfig c id = Ok r ->
  exists env, get_key "env" r = VObj env /\
    has_key "compiler" env = true /\
    has_key "tester" env = true /\
    get_key "compiler" env =
      jsor (get_prop (get_key "env" (overrideData c id)) "compiler") (legacy_compiler l) /\
    get_key "tester" env =
      jsor (get_prop (get_key "env" (overrideData c id)) "tester") (legacy_tester l).
Proof.
  intros Hl Hr.
  assert (Hobj : exists o,
    jsor (get_key "env" (overrideData c id)) (VObj []) = VObj o /\
    forall k, get_prop (get_key "env" (overrideData c id)) k = get_key k o).
  { destruct (truthy (get_key "env" (overrideData c id))) eqn:Ht.
    - destruct (get_key "env" (overrideData c id)) as [| |b|n|s|o] eqn:E;
        try discriminate.
      4: { exists o. by split. }
      all: exfalso;
        rewrite (getComponentConfig_legacy_primitive c l id Hl) in Hr;
        [ discriminate | by rewrite E | by rewrite E ].
    - exists []. split; [unfold jsor; by rewrite Ht|].
      intros k. by destruct (get_key "env" (overrideData c id)). }
  destruct Hobj as (o & Ho & Hread).
  rewrite (getComponentConfig_legacy c l id o Hl Ho) in Hr. injection Hr as <-.
  eexists. split; [apply get_key_set_key_eq|]. rewrite !Hread.
  split; [|split; [|split]].
  - unfold has_key. rewrite lookup_key_set_key_ne by done.
    by rewrite lookup_key_set_key_eq.
  - unfold has_key. by rewrite lookup_key_set_key_eq.
  - rewrite get_key_set_key_ne by done. apply get_key_set_key_eq.
  - apply get_key_set_key_eq.
Qed.

(** X9.  [getComponentConfig] throws exactly when a legacy config is wrapped
    and the [env] of the Override Table's record is a truthy value that is
    not an object; the error is then a TypeError.  In every other case it
    returns a record. *)
Theorem getComponentConfig_throws c id :
  (forall e, getComponentConfig c id = Throw e ->
     e = TypeError) /\
  ((exists e, getComponentConfig c id = Throw e) <->
   has_legacy c = true /\
   truthy (get_key "env" (overrideData c id)) = true /\
   forall o, get_key "env" (overrideData c id) <> VObj o).
Proof.
  assert (Hcases :
    (exists r, getComponentConfig c id = Ok r) /\
      ~ (has_legacy c = true /\
         truthy (get_key "env" (overrideData c id)) = true /\
         forall o, get_key "env" (overrideData c id) <> VObj o) \/
    getComponentConfig c id = Throw TypeError /\
      has_legacy c = true /\
      truthy (get_key "env" (overrideData c id)) = true /\
      forall o, get_key "env" (overrideData c id) <> VObj o).
  { unfold has_legacy. destruct (legacyConfig c) as [l|] eqn:Hl.
    - destruct (truthy (get_key "env" (overrideData c id))) eqn:Ht.
      + destruct (get_key "env" (overrideData c id)) as [| |b|n|s|o] eqn:E;
          try discriminate.
        4: { left. rewrite (getComponentConfig_legacy c l id o Hl); [|by rewrite E].
             split; [by eexists|]. intros (_ & _ & Hno). by destruct (Hno o). }
        all: right; rewrite (getComponentConfig_legacy_primitive c l id Hl);
          [ by repeat split | by rewrite E | by rewrite E ].
      + left. rewrite (getComponentConfig_legacy c l id [] Hl);
          [|unfold jsor; by rewrite Ht].
        split; [by eexists|]. by intros (_ & ? & _).
    - left. rewrite getComponentConfig_modern by done.
      split; [by eexists|]. by intros (? & _). }
  split.
  - intros e He. destruct Hcases as [[[r Hr] _]|[Ht _]]; congruence.
  - split.
    + intros [e He]. destruct Hcases as [[[r Hr] _]|[_ Hc]]; [congruence | done].
    + intros Hc. destruct Hcases as [[_ Hn]|[Ht _]]; [done | by exists TypeError].
Qed.

(** ** The path setter and the virtual file *)

(** X11.  Assigning a path changes nothing but the path: the language, the
    legacy compiler and tester, the override table, the resolution of every
    component, the extension config and the payloads are as before, and so
    are the virtual file and the effects of [write] for every non-empty
    [workspaceDir] (only an empty [workspaceDir] makes them use the path). *)
Theorem set_path_frame c p :
  lang (set_path c p) = lang c /\
  (forall type, _getEnvsByType (set_path c p) type = _getEnvsByType c type) /\
  componentsConfig (set_path c p) = componentsConfig c /\
  (forall id, getComponentConfig (set_path c p) id = getComponentConfig c id) /\
  getCoreExtensionsConfig (set_path c p) = getCoreExtensionsConfig c /\
  has_modern (set_path c p) = has_modern c /\
  has_legacy (set_path c p) = has_legacy c /\
  (forall workspaceDir, workspaceDir <> "" ->
     toVinyl (set_path c p) workspaceDir = toVinyl c workspaceDir /\
     write (set_path c p) workspaceDir = write c workspaceDir).
Proof.
  do 7 (split; [reflexivity|]).
  intros workspaceDir Hne. unfold write, toVinyl. cbn [set_path data legacyConfig].
  by rewrite (proj2 (truthy_VStr workspaceDir) Hne).
Qed.

(** X12.  [toVinyl] for a config holding modern data: with a non-empty
    [workspaceDir] it yields a virtual file based at [workspaceDir], at the
    computed [bit.jsonc] path, holding the serialised data, and that is the
    one file [write] persists; with the empty string as [workspaceDir] the
    virtual file cannot be built, [toVinyl] and [write] throw and the file
    system is left as it was.  Without modern data [toVinyl] yields whatever
    the legacy config's own [toVinyl] yields, and the result is [undefined]
    exactly when there is no modern data and the legacy config is absent or
    yields nothing. *)
Theorem toVinyl_outcomes c workspaceDir :
  (has_modern c = true -> workspaceDir <> "" ->
     exists f, toVinyl c workspaceDir = Ok (Some f) /\
       base f = workspaceDir /\
       vinyl_path f = composeBitJsoncPath workspaceDir /\
       contents f = stringify (data c) /\
       write c workspaceDir = Ok [Persist [f]]) /\
  (has_modern c = true -> workspaceDir = "" ->
     exists e, toVinyl c workspaceDir = Throw e /\
       write c workspaceDir = Throw e /\
       forall fs, run_write c workspaceDir fs = fs) /\
  (has_modern c = false ->
     toVinyl c workspaceDir =
       Ok (legacyConfig c ≫= (fun l => legacy_toVinyl l workspaceDir))) /\
  (toVinyl c workspaceDir = Ok None <->
     has_modern c = false /\
     (legacyConfig c = None \/
      exists l, legacyConfig c = Some l /\ legacy_toVinyl l workspaceDir = None)).
Proof.
  split; [|split; [|split]].
  - intros Hm Hne. rewrite write_modern by done.
    unfold has_modern in Hm. unfold toVinyl, new_AbstractVinyl.
    rewrite Hm, (proj2 (truthy_VStr workspaceDir) Hne). eexists. by repeat split.
  - intros Hm ->. destruct (write_modern_empty c Hm) as [Ht Hw].
    eexists. split; [exact Ht|]. split; [exact Hw|].
    intros fs. unfold run_write. by rewrite Hw.
  - unfold has_modern, toVinyl. by intros ->.
  - unfold has_modern, toVinyl, new_AbstractVinyl.
    destruct (truthy (data c)) eqn:Hm.
    + split; [|by intros [? _]].
      by destruct (truthy (VStr workspaceDir)).
    + destruct (legacyConfig c) as [l|]; cbn.
      * split.
        -- intros [= Hn]. split; [done|]. right. by exists l.
        -- intros [_ [?|(l' & [= <-] & Hn)]]; [discriminate | by rewrite Hn].
      * split; [intros _; split; [done | by left] | done].
Qed.

(** ** Key order of the extension config *)

Lemma keys_omit_loop (names : list string) (o : obj) (ks : list string) (acc : obj) :
  NoDup ks -> (forall k, k ∈ ks -> k ∉ keys acc) ->
  keys (fold_left
          (fun r p => if bool_decide (p ∈ names) then r else set_key p (get_key p o) r)
          ks acc) =
    (keys acc ++ filter (fun k => k ∉ names) ks)%list.
Proof.
  revert acc. induction ks as [|p ps IH]; intros acc Hnd Hfresh; cbn [fold_left].
  - by rewrite filter_nil, app_nil_r.
  - apply NoDup_cons in Hnd as [Hp Hnd]. case_bool_decide as Hin.
    + rewrite IH; [|done|].
      * by rewrite filter_cons_False by (intros Hn; by apply Hn).
      * intros k Hk. apply Hfresh. by right.
    + rewrite IH; [|done|].
      * rewrite keys_set_key.
        assert (has_key p acc = false) as ->.
        { destruct (has_key p acc) eqn:Hk; [|done].
          apply has_key_elem in Hk. exfalso. by apply (Hfresh p); [left|]. }
        rewrite filter_cons_True by done. by rewrite <- app_assoc.
      * intros k Hk. rewrite keys_set_key.
        assert (has_key p acc = false) as ->.
        { destruct (has_key p acc) eqn:Hk'; [|done].
          apply has_key_elem in Hk'. exfalso. by apply (Hfresh p); [left|]. }
        rewrite elem_of_app, list_elem_of_singleton.
        intros [Hacc| ->]; [|done].
        by apply (Hfresh k); [right|].
Qed.

Lemma keys_pick_loop (o : obj) (names : list string) (acc : obj) :
  NoDup names -> (forall k, k ∈ names -> k ∉ keys acc) ->
  keys (fold_left
          (fun r n => if has_key n o then set_key n (get_key n o) r else r)
          names acc) =
    (keys acc ++ filter (fun k => k ∈ keys o) names)%list.
Proof.
  revert acc. induction names as [|n ns IH]; intros acc Hnd Hfresh; cbn [fold_left].
  - by rewrite filter_nil, app_nil_r.
  - apply NoDup_cons in Hnd as [Hn Hnd].
    assert (Hacc : has_key n acc = false).
    { destruct (has_key n acc) eqn:Hk; [|done].
      apply has_key_elem in Hk. exfalso. by apply (Hfresh n); [left|]. }
    destruct (has_key n o) eqn:Ho.
    + rewrite IH; [|done|].
      * rewrite keys_set_key, Hacc.
        rewrite filter_cons_True by (by apply has_key_elem).
        by rewrite <- app_assoc.
      * intros k Hk. rewrite keys_set_key, Hacc.
        rewrite elem_of_app, list_elem_of_singleton.
        intros [Hin| ->]; [|done]. by apply (Hfresh k); [right|].
    + rewrite IH; [|done|].
      * rewrite filter_cons_False; [done|].
        intros Hin. apply has_key_elem in Hin. congruence.
      * intros k Hk. apply Hfresh. by right.
Qed.

(** X13.  Key order of [getCoreExtensionsConfig] on settings whose keys are
    distinct (as the keys of an object are): the top-level keys are the
    settings' keys other than the two fixed ones, in the settings' order,
    with [workspace] appended last unless the settings already had a key of
    that name, which keeps its place; the keys of the [workspace] object are
    those of the two fixed names the settings have, [defaultScope] first. *)
Theorem getCoreExtensionsConfig_keys c :
  NoDup (keys (settings_fields (workspaceSettings c))) ->
  let settings := settings_fields (workspaceSettings c) in
  let rest := filter (fun k => k ∉ workspaceExtPropNames) (keys settings) in
  keys (getCoreExtensionsConfig c) =
    (if bool_decide ("workspace" ∈ rest) then rest else (rest ++ ["workspace"])%list) /\
  exists w, get_key "workspace" (getCoreExtensionsConfig c) = VObj w /\
    keys w = filter (fun k => k ∈ keys settings) workspaceExtPropNames.
Proof.
  intros Hnd settings rest. unfold getCoreExtensionsConfig. fold settings.
  assert (Homit : keys (omit workspaceExtPropNames settings) = rest).
  { unfold omit. rewrite keys_omit_loop; [done|done|].
    intros k _. apply not_elem_of_nil. }
  split.
  - rewrite keys_set_key.
    destruct (has_key "workspace" (omit workspaceExtPropNames settings)) eqn:Hk.
    + apply has_key_elem in Hk. rewrite Homit in Hk.
      by rewrite bool_decide_eq_true_2.
    + rewrite bool_decide_eq_false_2; [by rewrite Homit|].
      intros Hin. rewrite <- Homit in Hin. apply has_key_elem in Hin. congruence.
  - eexists. split; [apply get_key_set_key_eq|].
    unfold pick. rewrite keys_pick_loop; [done| |].
    + unfold workspaceExtPropNames. repeat constructor.
      * rewrite list_elem_of_singleton. discriminate.
      * apply not_elem_of_nil.
    + intros k _. apply not_elem_of_nil.
Qed.

(** ** A config loaded from a legacy workspace *)

(** X14.  When the modern file is absent and the Legacy Bridge finds a config,
    [loadIfExist] returns a config with no modern data and no path of its
    own, and every accessor reads through to the legacy config: [path] is the
    legacy path (or the empty string), [lang] the legacy language (or the
    default), the compiler, tester and override table are the legacy ones,
    [toVinyl] is the legacy config's, and [write] is one delegated write. *)
Theorem loadIfExist_legacy_accessors fs dirPath l :
  fs !! composeBitJsoncPath dirPath = None ->
  legacy_loadIfExist fs dirPath = inr (Some l) ->
  exists c, loadIfExist fs dirPath = Ok (Some c) /\
    has_modern c = false /\
    legacyConfig c = Some l /\
    _path c = None /\
    path c = str_or (legacy_path l) "" /\
    lang c = str_or (legacy_lang l) DEFAULT_LANGUAGE /\
    _getEnvsByType c COMPILER_ENV_TYPE = legacy_compiler l /\
    _getEnvsByType c TESTER_ENV_TYPE = legacy_tester l /\
    componentsConfig c = legacy_overrides l /\
    workspaceSettings c = SettingsFromLegacyConfig (Some l) /\
    (forall workspaceDir,
       toVinyl c workspaceDir = Ok (legacy_toVinyl l workspaceDir) /\
       write c workspaceDir = Ok [LegacyWrite l workspaceDir]).
Proof.
  intros E L. rewrite (loadIfExist_absent _ _ E), L.
  eexists. split; [reflexivity|]. by repeat split.
Qed.

End Properties.

(** * The class on a concrete workspace *)

#[local] Existing Instance Demo.collaborators.

(** C1, witness: with the legacy workspace of [Demo], a component no pattern
    matches inherits the root compiler and tester, [ui/button], whose
    override names a compiler, keeps it and inherits the tester, and
    [ui/plain], whose override holds [false] as compiler, gets the root
    compiler. *)
Lemma getComponentConfig_env_fallback_witness :
  (exists r, getComponentConfig Demo.legacy_wrapped "lib/utils" = Ok r /\
     get_prop (get_key "env" r) "compiler" = VStr "bit.envs/compilers/babel" /\
     get_prop (get_key "env" r) "tester" = VStr "bit.envs/testers/mocha") /\
  (exists r, getComponentConfig Demo.legacy_wrapped "ui/button" = Ok r /\
     get_prop (get_key "env" r) "compiler" = VStr "bit.envs/compilers/typescript") /\
  (exists r, getComponentConfig Demo.legacy_wrapped "ui/plain" = Ok r /\
     get_prop (get_key "env" r) "compiler" = VStr "bit.envs/compilers/babel").
Proof.
  destruct (getComponentConfig_env_fallback (H := Demo.collaborators)
              Demo.legacy_wrapped Demo.legacy_cfg "lib/utils" eq_refl)
    as (Hno & _ & _ & _).
  destruct (getComponentConfig_env_fallback (H := Demo.collaborators)
              Demo.legacy_wrapped Demo.legacy_cfg "ui/button" eq_refl)
    as (_ & Hc & _ & _).
  destruct (getComponentConfig_env_fallback (H := Demo.collaborators)
              Demo.legacy_wrapped Demo.legacy_cfg "ui/plain" eq_refl)
    as (_ & _ & _ & Hfalsy).
  split; [|split].
  - exact (Hno eq_refl).
  - exact (Hc (VStr "bit.envs/compilers/typescript") (conj eq_refl eq_refl)).
  - destruct (Hfalsy (or_intror (ex_intro _ [("compiler", VBool false)] eq_refl)))
      as (r & Hr & Hcomp & _).
    exists r. split; [exact Hr | exact (Hcomp eq_refl)].
Defined.

(** C2, witness: for [ui/button] in the legacy workspace the fallback adds the
    tester and leaves [dependencies] as the Override Table supplied it; a
    config built from modern data returns the Override Table's record for
    [ui/button] untouched. *)
Lemma getComponentConfig_frame_witness :
  (lookup_key "dependencies"
     [("env", VObj [("compiler", VStr "bit.envs/compilers/typescript");
                    ("tester", VStr "bit.envs/testers/mocha")]);
      ("dependencies", VObj [("react", VStr "16.0.0")])] =
   lookup_key "dependencies" (overrideData Demo.legacy_wrapped "ui/button")) /\
  getComponentConfig (fromObject Demo.modern_doc) "ui/button" =
    Ok [("env", VObj [("compiler", VStr "bit.envs/compilers/typescript")])].
Proof.
  split.
  - pose proof (proj1 (getComponentConfig_frame (H := Demo.collaborators)
                         Demo.legacy_wrapped "ui/button")) as Hframe.
    change (getComponentConfig Demo.legacy_wrapped "ui/button")
      with (Ok [("env", VObj [("compiler", VStr "bit.envs/compilers/typescript");
                              ("tester", VStr "bit.envs/testers/mocha")]);
                ("dependencies", VObj [("react", VStr "16.0.0")])]) in Hframe.
    exact (proj1 Hframe "dependencies" ltac:(discriminate)).
  - exact (proj2 (getComponentConfig_frame (H := Demo.collaborators)
                    (fromObject Demo.modern_doc) "ui/button")
             (built_fromObject Demo.modern_doc) eq_refl).
Defined.

(** C2, counterexample: a config constructed with both a modern payload and a
    legacy config holds modern data, and still gets the legacy tester added
    to the record the Override Table supplied for [ui/button]. *)
Lemma modern_data_with_legacy_gets_fallback :
  has_modern (new_WorkspaceConfig Demo.modern_doc (Some Demo.legacy_cfg)) = true /\
  overrideData (new_WorkspaceConfig Demo.modern_doc (Some Demo.legacy_cfg)) "ui/button" =
    [("env", VObj [("compiler", VStr "bit.envs/compilers/typescript")])] /\
  getComponentConfig (new_WorkspaceConfig Demo.modern_doc (Some Demo.legacy_cfg)) "ui/button" =
    Ok [("env", VObj [("compiler", VStr "bit.envs/compilers/typescript");
                      ("tester", VStr "bit.envs/testers/mocha")])] /\
  getComponentConfig (new_WorkspaceConfig Demo.modern_doc (Some Demo.legacy_cfg)) "ui/button" <>
    Ok (overrideData (new_WorkspaceConfig Demo.modern_doc (Some Demo.legacy_cfg)) "ui/button").
Proof. split; [reflexivity|]. split; [reflexivity|]. split; [reflexivity|]. discriminate. Qed.


(** C4, witness: a malformed [/w/bit.jsonc] raises [InvalidConfigFile] for that
    file, an empty file system gives "not found", and a file that parses (here
    to [null]) gives a config at the file's path. *)
Lemma loadIfExist_outcomes_witness :
  loadIfExist Demo.fs_broken "/w" = Throw (InvalidConfigFile "/w/bit.jsonc") /\
  loadIfExist (∅ : filesystem) "/w" = Ok None /\
  (exists c, loadIfExist Demo.fs_null "/w" = Ok (Some c) /\ _path c = Some "/w/bit.jsonc").
Proof.
  split; [|split].
  - apply (proj1 (loadIfExist_outcomes (H := Demo.collaborators) Demo.fs_broken "/w")).
    split; [reflexivity|]. exists "{ workspace: ". split; vm_compute; reflexivity.
  - exact (proj1 (proj2 (loadIfExist_outcomes (H := Demo.collaborators) (∅ : filesystem) "/w")) eq_refl eq_refl).
  - destruct (proj2 (proj2 (loadIfExist_outcomes (H := Demo.collaborators) Demo.fs_null "/w")) "null" VNull
                ltac:(vm_compute; reflexivity) eq_refl) as (c & Hc & _ & _ & Hp).
    exists c. split; [exact Hc | exact Hp].
Defined.

(** C5, witness: on settings with [defaultScope], [componentsDefaultDirectory]
    and [lang], the two fixed fields go under [workspace] and [lang] stays at
    the top level. *)
Lemma getCoreExtensionsConfig_partition_witness :
  lookup_key "lang" (getCoreExtensionsConfig Demo.legacy_wrapped) = Some (VStr "ts") /\
  lookup_key "defaultScope" (getCoreExtensionsConfig Demo.legacy_wrapped) = None.
Proof.
  destruct (getCoreExtensionsConfig_partition Demo.legacy_wrapped) as (_ & Hfixed & Hrest & _).
  split.
  - apply (Hrest "lang"); [|discriminate].
    unfold workspaceExtPropNames. rewrite !not_elem_of_cons.
    repeat split; try discriminate. apply not_elem_of_nil.
  - apply (Hfixed "defaultScope"). unfold workspaceExtPropNames. left.
Defined.

(** C5, counterexample: a settings field named [workspace] is not one of the
    two fixed fields, yet it does not appear unchanged at the top level: the
    extracted subset takes its place. *)
Lemma settings_workspace_field_replaced :
  ("workspace" ∉ workspaceExtPropNames) /\
  lookup_key "workspace" (settings_fields (workspaceSettings Demo.clashing)) =
    Some (VStr "x") /\
  lookup_key "workspace" (getCoreExtensionsConfig Demo.clashing) = Some (VObj []) /\
  lookup_key "workspace" (getCoreExtensionsConfig Demo.clashing) <>
    lookup_key "workspace" (settings_fields (workspaceSettings Demo.clashing)).
Proof.
  split.
  - unfold workspaceExtPropNames. rewrite !not_elem_of_cons.
    repeat split; try discriminate. apply not_elem_of_nil.
  - repeat split; try reflexivity. discriminate.
Qed.

(** C6, witness: a path set on the legacy workspace of [Demo] wins over the
    legacy path, which is what is read before any path is set. *)
Lemma path_precedence_witness :
  path (set_path Demo.legacy_wrapped "/w/bit.jsonc") = "/w/bit.jsonc" /\
  path Demo.legacy_wrapped = "/w/bit.json" /\
  path (fromObject Demo.modern_doc) = "".
Proof.
  split; [|split].
  - apply (proj1 (proj2 (proj2 (proj2 (path_precedence Demo.legacy_wrapped))))).
    discriminate.
  - apply (proj1 (proj2 (path_precedence Demo.legacy_wrapped)) Demo.legacy_cfg);
      [by left | reflexivity | reflexivity | discriminate].
  - apply (proj1 (proj2 (proj2 (path_precedence (fromObject Demo.modern_doc)))));
      by left.
Defined.

(** C6, counterexample: after setting the path of a legacy-wrapped config to
    the empty string, reading it returns the legacy path, not the empty
    string that was set. *)
Lemma set_empty_path_reads_legacy :
  path (set_path Demo.legacy_wrapped "") = "/w/bit.json" /\
  path (set_path Demo.legacy_wrapped "") <> "".
Proof. split; [reflexivity | discriminate]. Qed.

(** C7, witness: merging [{ workspace: { defaultScope: "acme" } }] over the
    template replaces the template's [workspace] and keeps its [$schema]; the
    merged object is the one the template was parsed into. *)
Lemma create_merge_witness :
  lookup_key "workspace" (assign Demo.template_doc Demo.scoped_props) =
    Some (VObj [("defaultScope", VStr "acme")]) /\
  lookup_key "$schema" (assign Demo.template_doc Demo.scoped_props) =
    Some (VStr "https://static.bit.dev/schemas/schema.json") /\
  (create_refs Demo.scoped_props []).1.2 = (create_refs Demo.scoped_props []).1.1.
Proof.
  destruct (create_merge (H := Demo.collaborators) Demo.scoped_props None)
    as (_ & Hwin & Hkeep & _ & _ & Hrefs).
  split; [|split].
  - exact (Hwin _ "workspace" eq_refl eq_refl).
  - exact (Hkeep _ "$schema" eq_refl eq_refl).
  - exact (proj1 (Hrefs [])).
Defined.

(** C7, counterexample: [merged] is the very object the template was parsed
    into, and after the merge that object no longer holds what was parsed. *)
Lemma create_writes_into_parsed_template :
  (Refs.alloc Demo.template_doc []).1 = 0 /\
  create_refs Demo.scoped_props [] =
    (0, 0, [[("$schema", VStr "https://static.bit.dev/schemas/schema.json");
             ("$schemaVersion", VStr "1.0.0");
             ("workspace", VObj [("defaultScope", VStr "acme")])]]) /\
  Refs.deref (create_refs Demo.scoped_props []).2 0 <> Demo.template_doc.
Proof. split; [reflexivity|]. split; [reflexivity|]. discriminate. Qed.

(** C8, witness: writing a created config to [/w] persists one file at
    [/w/bit.jsonc]; writing the legacy workspace delegates one write. *)
Lemma write_effects_witness :
  write (create (VObj []) (Some "/w")) "/w" =
    Ok [Persist [mkVinyl "/w" "/w/bit.jsonc" "{ template }"]] /\
  write Demo.legacy_wrapped "/w" = Ok [LegacyWrite Demo.legacy_cfg "/w"].
Proof.
  split.
  - exact (proj1 (proj1 (write_effects (H := Demo.collaborators)
                           (create (VObj []) (Some "/w")) "/w")
                    eq_refl ltac:(discriminate))).
  - exact (proj1 (proj1 (proj2 (write_effects (H := Demo.collaborators)
                                  Demo.legacy_wrapped "/w"))
                    eq_refl Demo.legacy_cfg eq_refl)).
Defined.

(** C9, witness: the configs [create] and [loadIfExist] produce here hold
    exactly one payload. *)
Lemma reachable_payloads_witness :
  exactly_one_payload (fromObject Demo.modern_doc) /\
  (has_modern (set_path (create (VObj []) None) "/w/bit.jsonc") &&
   has_legacy (set_path (create (VObj []) None) "/w/bit.jsonc") = false).
Proof.
  destruct (reachable_payloads (H := Demo.collaborators)) as (Hb & Hobj & _).
  split.
  - exact (Hobj Demo.modern_doc eq_refl).
  - exact (proj1 (Hb _ (built_set_path _ "/w/bit.jsonc" (built_create (VObj []) None)))).
Defined.

(** C9, counterexample: a [bit.jsonc] whose content is [null] parses, and the
    config [loadIfExist] returns for it holds neither a modern nor a legacy
    payload. *)
Lemma loaded_null_holds_neither :
  loadIfExist Demo.fs_null "/w" = Ok (Some (set_path (fromObject VNull) "/w/bit.jsonc")) /\
  built (set_path (fromObject VNull) "/w/bit.jsonc") /\
  has_modern (set_path (fromObject VNull) "/w/bit.jsonc") = false /\
  has_legacy (set_path (fromObject VNull) "/w/bit.jsonc") = false /\
  ~ exactly_one_payload (set_path (fromObject VNull) "/w/bit.jsonc").
Proof.
  split; [reflexivity|]. split; [|split; [reflexivity|split; [reflexivity|]]].
  - apply (built_loadIfExist Demo.fs_null "/w"). reflexivity.
  - unfold exactly_one_payload. discriminate.
Qed.

(** C10, witness: a config built from a modern payload that itself names a
    language still reads the default language. *)
Lemma lang_modern_default_witness :
  lang (fromObject Demo.modern_doc) = "javascript" /\
  lang (set_path (fromObject Demo.modern_doc) "/w/bit.jsonc") = "javascript".
Proof.
  destruct (lang_modern_default (H := Demo.collaborators)) as (Hobj & _ & Hnone & _).
  split.
  - exact (Hobj Demo.modern_doc).
  - exact (Hnone (set_path (fromObject Demo.modern_doc) "/w/bit.jsonc") eq_refl).
Defined.

(** * Further examples on the concrete workspace *)

(** X1, witness: adding a legacy [bit.json] next to a modern [bit.jsonc] does
    not change what is loaded. *)
Lemma loadIfExist_modern_precedence_witness :
  loadIfExist Demo.fs_null "/w" =
  loadIfExist (<["/w/bit.json" := File "legacy"]> Demo.fs_null) "/w".
Proof.
  exact (proj1 (loadIfExist_modern_precedence (H := Demo.collaborators)
                  Demo.fs_null (<["/w/bit.json" := File "legacy"]> Demo.fs_null)
                  "/w" (File "null")
                  ltac:(vm_compute; reflexivity) ltac:(vm_compute; reflexivity))).
Defined.

(** X2, witness: a directory at the [bit.jsonc] path raises the read error. *)
Lemma loadIfExist_errors_witness :
  loadIfExist ({[ "/w/bit.jsonc" := Dir ]} : filesystem) "/w" = Throw (External "EISDIR").
Proof.
  apply (proj2 (loadIfExist_errors (H := Demo.collaborators)
                  ({[ "/w/bit.jsonc" := Dir ]} : filesystem) "/w" (External "EISDIR"))).
  right. left. split; [vm_compute; reflexivity | reflexivity].
Defined.

(** X3, witness: reading a missing file raises the file system's error. *)
Lemma loadFromBitJsonc_outcomes_witness :
  exists msg, _loadFromBitJsonc (∅ : filesystem) "/w/bit.jsonc" = Throw (External msg).
Proof.
  exact (proj1 (loadFromBitJsonc_outcomes (H := Demo.collaborators)
                  (∅ : filesystem) "/w/bit.jsonc") eq_refl).
Defined.

(** X4, witness: a malformed [bit.jsonc] makes [ensure] raise. *)
Lemma ensure_errors_witness :
  ensure Demo.fs_broken "/w" None = Throw (InvalidConfigFile "/w/bit.jsonc").
Proof.
  exact (proj1 (proj2 (ensure_errors (H := Demo.collaborators) Demo.fs_broken "/w" None))
           "{ workspace: " ltac:(vm_compute; reflexivity) ltac:(vm_compute; reflexivity)).
Defined.

(** X5, witness: props that are not an object leave the template as it is. *)
Lemma ensure_default_props_witness :
  exists c, ensure (∅ : filesystem) "/w" (Some VNull) = Ok c /\
    data c = VObj Demo.template_doc /\
    workspaceSettings c =
      SettingsFromObject (VObj [("defaultScope", VStr "my-scope");
                                ("componentsDefaultDirectory", VStr "components")]) /\
    legacyConfig c = None.
Proof.
  apply (ensure_default_props (H := Demo.collaborators) (∅ : filesystem) "/w" (Some VNull)).
  - reflexivity.
  - right. right. exists VNull. split; [reflexivity | discriminate].
Defined.

(** X6, witness: props with a [workspace] section replace the template's. *)
Lemma create_settings_witness :
  get_key "workspace" (assign Demo.template_doc Demo.scoped_props) =
    VObj [("defaultScope", VStr "acme")] /\
  get_key "$schemaVersion" (assign Demo.template_doc Demo.scoped_props) = VStr "1.0.0".
Proof.
  destruct (create_settings (H := Demo.collaborators) Demo.scoped_props None)
    as (_ & _ & Hwin & Hkeep & _).
  split.
  - exact (Hwin _ "workspace" eq_refl eq_refl).
  - exact (Hkeep _ "$schemaVersion" eq_refl eq_refl).
Defined.

(** X7, witness: a created config written to [/w] is loaded back with the
    same data. *)
Lemma write_load_roundtrip_witness :
  exists c', loadIfExist (run_write (create (VObj []) None) "/w" ∅) "/w" = Ok (Some c') /\
    data c' = VObj Demo.template_doc /\
    _path c' = Some "/w/bit.jsonc".
Proof.
  destruct (write_load_roundtrip (H := Demo.collaborators) (create (VObj []) None) "/w" ∅
              eq_refl ltac:(discriminate) eq_refl)
    as (_ & c' & Hload & Hdata & _ & Hpath & _).
  exists c'. split; [exact Hload|]. split; [exact Hdata | exact Hpath].
Defined.

(** X8, witness: for [ui/plain], whose override sets the compiler to [false],
    the returned [env] holds the legacy compiler and tester. *)
Lemma getComponentConfig_env_values_witness :
  exists env,
    get_key "env" [("env", VObj [("compiler", VStr "bit.envs/compilers/babel");
                                 ("tester", VStr "bit.envs/testers/mocha")])] = VObj env /\
    get_key "compiler" env = VStr "bit.envs/compilers/babel" /\
    get_key "tester" env = VStr "bit.envs/testers/mocha".
Proof.
  destruct (getComponentConfig_env_values (H := Demo.collaborators)
              Demo.legacy_wrapped Demo.legacy_cfg "ui/plain" _ eq_refl eq_refl)
    as (env & Henv & _ & _ & Hc & Ht).
  exists env. split; [exact Henv|]. split; [exact Hc | exact Ht].
Defined.

(** X9, witness: a legacy override whose [env] is a string makes the call throw. *)
Lemma getComponentConfig_throws_witness :
  exists e,
    getComponentConfig
      (fromLegacyConfig (Some (mkLegacy None None VUndefined VUndefined
         (Some (mkOverrides [("ui/button", VObj [("env", VStr "node")])])) [] [])))
      "ui/button" = Throw e.
Proof.
  apply (proj2 (getComponentConfig_throws (H := Demo.collaborators) _ "ui/button")).
  split; [reflexivity|]. split; [reflexivity|]. intros o. discriminate.
Defined.

(** X11, witness: the virtual file for [/w] is the same before and after a
    path is assigned. *)
Lemma set_path_frame_witness :
  toVinyl (set_path (fromObject (VObj Demo.template_doc)) "/elsewhere/bit.jsonc") "/w" =
  toVinyl (fromObject (VObj Demo.template_doc)) "/w".
Proof.
  destruct (set_path_frame (H := Demo.collaborators)
              (fromObject (VObj Demo.template_doc)) "/elsewhere/bit.jsonc")
    as (_ & _ & _ & _ & _ & _ & _ & Hdir).
  exact (proj1 (Hdir "/w" ltac:(discriminate))).
Defined.

(** X12, witness: a config holding modern data yields a virtual file based at
    the directory it is asked for, and none for the empty string. *)
Lemma toVinyl_outcomes_witness :
  (exists f, toVinyl Demo.moved "/w" = Ok (Some f) /\
     base f = "/w" /\ vinyl_path f = "/w/bit.jsonc") /\
  (exists e, toVinyl Demo.moved "" = Throw e /\ write Demo.moved "" = Throw e).
Proof.
  split.
  - destruct (proj1 (toVinyl_outcomes (H := Demo.collaborators) Demo.moved "/w")
                eq_refl ltac:(discriminate))
      as (f & Hf & Hb & Hp & _).
    exists f. split; [exact Hf|]. split; [exact Hb | exact Hp].
  - destruct (proj1 (proj2 (toVinyl_outcomes (H := Demo.collaborators) Demo.moved ""))
                eq_refl eq_refl)
      as (e & Ht & Hw & _).
    exists e. split; [exact Ht | exact Hw].
Defined.

(** X13, witness: on the settings [defaultScope], [componentsDefaultDirectory],
    [lang] the top-level keys are [lang] and then [workspace]. *)
Lemma getCoreExtensionsConfig_keys_witness :
  keys (getCoreExtensionsConfig Demo.legacy_wrapped) = ["lang"; "workspace"].
Proof.
  refine (proj1 (getCoreExtensionsConfig_keys Demo.legacy_wrapped _)).
  change (NoDup ["defaultScope"; "componentsDefaultDirectory"; "lang"]).
  repeat (apply NoDup_cons_2;
          [rewrite ?not_elem_of_cons; repeat split; try discriminate; apply not_elem_of_nil|]).
  apply NoDup_nil_2.
Defined.

(** X14, witness: the legacy workspace of [Demo] is loaded with its own path
    and language. *)
Lemma loadIfExist_legacy_accessors_witness :
  exists c, loadIfExist Demo.fs_legacy "/w" = Ok (Some c) /\
    path c = "/w/bit.json" /\ lang c = "typescript".
Proof.
  destruct (loadIfExist_legacy_accessors (H := Demo.collaborators)
              Demo.fs_legacy "/w" Demo.legacy_cfg
              ltac:(vm_compute; reflexivity) ltac:(vm_compute; reflexivity))
    as (c & Hload & _ & _ & _ & Hpath & Hlang & _).
  exists c. split; [exact Hload|]. split; [exact Hpath | exact Hlang].
Defined.
